(** * testfs: a virtual test file system built on FUSE

    A shallow embedding of [testfs.c] and the properties of its four
    handlers ([testfs_getattr], [testfs_readdir], [testfs_open],
    [testfs_read]).

    Conventions of the embedding.
    - Target: LP64 Linux as built by gcc.  [int] is 32 bits, [long],
      [off_t] and [size_t] are 64 bits, plain [char] is signed.  Machine
      integers are values of [Z]; every conversion and every operation
      that can leave the range of its C type has its wrap-around written
      out ([to_int], [to_uint], [to_long], [to_ulong]).
    - C strings are values of [string]; a C string has no NUL character.
      Each handler copies its path with [strcpy] into [char pathbuf[256]],
      so the definitions of the handlers stand for paths shorter than 256
      characters, and the theorems stated for every path of a handler
      carry [String.length path < 256]; the lemmas that lead to them are
      facts about the definitions.  On such a path [strcpy] into a fresh
      buffer is the identity and is not written.
    - [strtok] keeps a hidden cursor; here it returns the token together
      with the rest of the buffer, and callers pass the rest along.
    - Output parameters ([stbuf], the [filler] calls, [buf]) are returned
      next to the handler's return code. *)

From Stdlib Require Import ZArith List Bool Lia.
From Stdlib Require Import Strings.String Strings.Ascii.
From Stdlib Require Import Numbers.DecimalString Numbers.DecimalPos.
Import ListNotations.

Local Open Scope string_scope.
Local Open Scope Z_scope.

(** ** Machine integers *)

Module CInt.

Definition wrap_signed (bits n : Z) : Z :=
  (n + 2 ^ (bits - 1)) mod 2 ^ bits - 2 ^ (bits - 1).

Definition wrap_unsigned (bits n : Z) : Z := n mod 2 ^ bits.

(** Conversion to [int], [unsigned int], [long] / [off_t],
    [unsigned long] / [size_t]. *)
Definition to_int (n : Z) : Z := wrap_signed 32 n.
Definition to_uint (n : Z) : Z := wrap_unsigned 32 n.
Definition to_long (n : Z) : Z := wrap_signed 64 n.
Definition to_ulong (n : Z) : Z := wrap_unsigned 64 n.

Definition INT_MAX : Z := 2147483647.
Definition INT_MIN : Z := -2147483648.
Definition LONG_MAX : Z := 9223372036854775807.
Definition LONG_MIN : Z := -9223372036854775808.

(** Plain [char] promoted to [int]: signed on the target. *)
Definition char_to_int (c : ascii) : Z :=
  let n := Z.of_nat (nat_of_ascii c) in
  if n <? 128 then n else n - 256.

End CInt.
Import CInt.

(** ** The C library functions the program calls *)

Module Libc.

Definition isspace (c : ascii) : bool :=
  let n := nat_of_ascii c in
  (Nat.eqb n 32 || (Nat.leb 9 n && Nat.leb n 13))%bool.

Definition isdigit (c : ascii) : bool :=
  let n := nat_of_ascii c in (Nat.leb 48 n && Nat.leb n 57)%bool.

Definition digit_val (c : ascii) : Z := Z.of_nat (nat_of_ascii c) - 48.

Fixpoint skip_space (s : string) : string :=
  match s with
  | String c r => if isspace c then skip_space r else s
  | EmptyString => EmptyString
  end.

(** The digits at the head of [s], accumulated in base ten. *)
Fixpoint read_digits (s : string) (acc : Z) : Z :=
  match s with
  | String c r => if isdigit c then read_digits r (10 * acc + digit_val c) else acc
  | EmptyString => acc
  end.

Definition starts_with_digit (s : string) : bool :=
  match s with
  | String c _ => isdigit c
  | EmptyString => false
  end.

Definition unsigned_numeral (s : string) : option Z :=
  if starts_with_digit s then Some (read_digits s 0) else None.

(** The subject sequence of [strtol] in base ten: white space, an optional
    sign, at least one digit.  The value is the mathematical one. *)
Definition numeral (s : string) : option Z :=
  match skip_space s with
  | String "-" r => option_map Z.opp (unsigned_numeral r)
  | String "+" r => unsigned_numeral r
  | s' => unsigned_numeral s'
  end.

(** [strtol] saturates at the bounds of [long]. *)
Definition strtol_clamp (n : Z) : Z := Z.max LONG_MIN (Z.min LONG_MAX n).

(** [atoi (s)] is [(int) strtol (s, NULL, 10)]: zero when there is no
    numeral. *)
Definition atoi (s : string) : Z :=
  match numeral s with
  | Some n => to_int (strtol_clamp n)
  | None => 0
  end.

(** The outcome of [sscanf] with a format of the shape ["%d" ++ lit]. *)
Inductive scan_result : Type :=
| Assigned (val : Z)   (* the conversion stored [val] *)
| MatchFailure         (* no numeral at the head of the input *)
| InputFailure.        (* the input ended before the conversion *)

(** What [sscanf] returns: the number of input items assigned, or [EOF]. *)
Definition scan_count (r : scan_result) : Z :=
  match r with
  | Assigned _ => 1
  | MatchFailure => 0
  | InputFailure => -1
  end.

(** [sscanf (s, "%d" ++ lit, &val)].  The conversion [%d] comes first; once
    it has stored its value the count is one, and the literal characters
    [lit] that follow in the format can only stop the scan, they cannot
    take the count back.  So [lit] has no part in the outcome. *)
Definition sscanf_d (lit : string) (s : string) : scan_result :=
  match numeral s with
  | Some n => Assigned (to_int (strtol_clamp n))
  | None =>
      match skip_space s with
      | EmptyString => InputFailure
      | _ => MatchFailure
      end
  end.

Fixpoint skip_delim (d : ascii) (s : string) : string :=
  match s with
  | String c r => if Ascii.eqb c d then skip_delim d r else s
  | EmptyString => EmptyString
  end.

(** The token at the head of [s] and what follows the delimiter that ends
    it. *)
Fixpoint take_token (d : ascii) (s : string) : string * string :=
  match s with
  | String c r =>
      if Ascii.eqb c d then (EmptyString, r)
      else let (t, rest) := take_token d r in (String c t, rest)
  | EmptyString => (EmptyString, EmptyString)
  end.

(** [strtok] with the one-character delimiter set [d], on the buffer that
    remains: [None] is the NULL return. *)
Definition strtok (d : ascii) (s : string) : option (string * string) :=
  match skip_delim d s with
  | EmptyString => None
  | s' => Some (take_token d s')
  end.

(** [sprintf (fname, "%d", i)]. *)
Definition sprintf_d (i : Z) : string := NilZero.string_of_int (Z.to_int i).

End Libc.
Import Libc.

(** ** Constants *)

Definition TOKLEN : Z := 32.
Definition MAXTOK : nat := 16.
Definition MAXWIDTH : Z := 1000000.

(** From [<errno.h>], [<fcntl.h>] and [<sys/stat.h>] on Linux. *)
Definition ENOENT : Z := 2.
Definition EACCES : Z := 13.
Definition O_RDONLY : Z := 0.
Definition O_WRONLY : Z := 1.
Definition O_RDWR : Z := 2.
Definition O_APPEND : Z := 1024.
Definition S_IFDIR : Z := 16384.
Definition S_IFREG : Z := 32768.

(** ** The root directory name of a virtual tree *)

Record root_struct : Type := mkRoot {
  fsize : Z;          (* size of virtual files in the tree *)
  depth : Z;          (* depth of the tree *)
  width : list Z      (* number of subdirectories or files at each layer *)
}.

(** [root.width[i]].  The array has [MAXTOK] cells.  The handlers index it
    at [depth - 1], which is [-1] for a tree without layers: that cell is
    the [int] just before the array in the struct, the field [depth]. *)
Definition width_at (root : root_struct) (i : Z) : Z :=
  if i =? -1 then depth root
  else nth (Z.to_nat i) (width root) 0.

(** [root->width[n] = val] *)
Fixpoint set_nth (n : nat) (val : Z) (l : list Z) : list Z :=
  match l, n with
  | [], _ => []
  | _ :: t, O => val :: t
  | h :: t, S m => h :: set_nth m val t
  end.

(** The loop over the width tokens.  [fuel] is [MAXTOK - depth], the room
    the loop condition [root->depth < MAXTOK] leaves.  [strtok] returns no
    empty token, so the [strlen (p) == 0] branch is never taken. *)
Fixpoint parse_widths (fuel : nat) (p : option (string * string))
    (root : root_struct) : option root_struct :=
  match p, fuel with
  | Some (tok, rest), S fuel' =>
      let val := atoi tok in
      if (val <=? 0) || (val >? MAXWIDTH) then None
      else
        parse_widths fuel' (strtok "x" rest)
          (mkRoot (fsize root) (depth root + 1)
                  (set_nth (Z.to_nat (depth root)) val (width root)))
  | _, _ => Some root
  end.

(** The cascade over the size token, in the order of the source. *)
Definition parse_fsize (p : string) : option Z :=
  match sscanf_d "k" p with
  | Assigned val => Some (to_int (val * 1024))
  | _ =>
  match sscanf_d "K" p with
  | Assigned val => Some (to_int (val * 1024))
  | _ =>
  match sscanf_d "m" p with
  | Assigned val => Some (to_int (val * 1024 * 1024))
  | _ =>
  match sscanf_d "m" p with
  | Assigned val => Some (to_int (val * 1024 * 1024))
  | _ =>
  match sscanf_d "M" p with
  | Assigned val => Some (to_int (val * 1024 * 1024))
  | _ =>
  match sscanf_d "g" p with
  | Assigned val => Some (to_int (val * 1024 * 1024 * 1024))
  | _ =>
  match sscanf_d "G" p with
  | Assigned val => Some (to_int (val * 1024 * 1024 * 1024))
  | _ =>
  match sscanf_d "" p with
  | Assigned val => Some val
  | _ => None
  end end end end end end end end.

(** [parse_root]: [None] is the return value [-1], [Some root] is [0] with
    the struct filled in. *)
Definition parse_root (str : string) : option root_struct :=
  match strtok "x" str with
  | None => None
  | Some (p, rest) =>
      match parse_fsize p with
      | None => None
      | Some fs =>
          parse_widths MAXTOK (strtok "x" rest)
            (mkRoot fs 0 (repeat 0 MAXTOK))
      end
  end.

(** ** Seed and tokens of a path *)

(** The loop of [seed_from_path]: [seed] and [x] are [unsigned int]; the
    character is promoted to [int] and converted to [unsigned int] for the
    product. *)
Fixpoint seed_loop (p : string) (seed x : Z) : Z :=
  match p with
  | EmptyString => seed
  | String c p' =>
      seed_loop p'
        (to_uint (seed + to_uint (to_uint (char_to_int c) * x)))
        (to_uint (char_to_int c))
  end.

(** The [unsigned int] seed is returned as [int]. *)
Definition seed_from_path (path : string) : Z := to_int (seed_loop path 0 0).

(** The loop of [parse_path]; [fuel] is [MAXTOK - n]. *)
Fixpoint parse_path_loop (fuel : nat) (p : option (string * string))
    : list string :=
  match p, fuel with
  | Some (tok, rest), S fuel' => tok :: parse_path_loop fuel' (strtok "/" rest)
  | _, _ => []
  end.

(** [parse_path]: the list is [tok[0 .. n-1]], its length the returned
    [n]. *)
Definition parse_path (path : string) : list string :=
  parse_path_loop MAXTOK (strtok "/" path).

Definition ntok_of (tok : list string) : Z := Z.of_nat (List.length tok).

(** [tok[i]] *)
Definition tok_at (tok : list string) (i : Z) : string :=
  nth (Z.to_nat i) tok EmptyString.

(** ** Handlers *)

(** The fields of [struct stat] the program writes. *)
Record stat : Type := mkStat {
  st_mode : Z;
  st_nlink : Z;
  st_size : Z
}.

(** [memset (stbuf, 0, sizeof (struct stat))] *)
Definition zero_stat : stat := mkStat 0 0 0.

Definition dir_mode : Z := Z.lor S_IFDIR 493.   (* S_IFDIR | 0755 *)
Definition reg_mode : Z := Z.lor S_IFREG 292.   (* S_IFREG | 0444 *)

(** [testfs_getattr]: the return value and [*stbuf] at return.
    [strcpy (pathbuf, path)] fills [char pathbuf[256]]: the definition
    stands for paths shorter than 256 characters. *)
Definition testfs_getattr (path : string) (stbuf : stat) : Z * stat :=
  if String.eqb path "/" then (- ENOENT, stbuf)
  else
    let stbuf := zero_stat in
    let tok := parse_path path in
    let ntok := ntok_of tok in
    if ntok <? 1 then (- ENOENT, stbuf)
    else
      match parse_root (tok_at tok 0) with
      | None => (- ENOENT, stbuf)
      | Some root =>
          if ntok <=? depth root then
            (0, mkStat dir_mode 2 (st_size stbuf))
          else if ntok =? depth root + 1 then
            (0, mkStat reg_mode 1 (fsize root))
          else (- ENOENT, stbuf)
      end.

(** The loop of [testfs_readdir]: the names handed to [filler], in order.
    [fuel] bounds the iterations by the width. *)
Fixpoint readdir_loop (fuel : nat) (i w : Z) : list string :=
  match fuel with
  | O => []
  | S fuel' =>
      if i <? w then sprintf_d i :: readdir_loop fuel' (i + 1) w else []
  end.

(** [testfs_readdir]: the return value and the names handed to [filler].
    [strcpy (pathbuf, path)] fills [char pathbuf[256]]: the definition
    stands for paths shorter than 256 characters. *)
Definition testfs_readdir (path : string) : Z * list string :=
  if String.eqb path "/" then (- ENOENT, [])
  else
    let tok := parse_path path in
    let ntok := ntok_of tok in
    if ntok <? 1 then (- ENOENT, [])
    else
      match parse_root (tok_at tok 0) with
      | None => (- ENOENT, [])
      | Some root =>
          if ntok >? depth root then (- ENOENT, [])
          else
            let w := width_at root (ntok - 1) in
            (0, "." :: ".." :: readdir_loop (Z.to_nat w) 0 w)
      end.

(** The checks [testfs_open] and [testfs_read] share, line for line:
    [inl] is the error returned, [inr] the descriptor of a file that
    passed.  Both handlers start with [strcpy (pathbuf, path)] into
    [char pathbuf[256]]: the definition stands for paths shorter than 256
    characters. *)
Definition file_checks (path : string) (flags : Z) : Z + root_struct :=
  let tok := parse_path path in
  let ntok := ntok_of tok in
  if ntok <? 1 then inl (- ENOENT)
  else
    match parse_root (tok_at tok 0) with
    | None => inl (- ENOENT)
    | Some root =>
        if negb (ntok =? depth root + 1) then inl (- ENOENT)
        else
          match sscanf_d "" (tok_at tok (ntok - 1)) with
          | Assigned val =>
              if (val <? 0) || (val >=? width_at root (depth root - 1))
              then inl (- ENOENT)
              else if negb (Z.land flags 3 =? O_RDONLY) then inl (- EACCES)
              else inr root
          | _ => inl (- ENOENT)
          end
    end.

Definition testfs_open (path : string) (flags : Z) : Z :=
  match file_checks path flags with
  | inl err => err
  | inr _ => 0
  end.

(** [buf[i]] for the file position [j]; [seed], [j] and the sum are
    [int], [%] truncates towards zero, the result is stored in a [char]. *)
Definition content_byte (root : root_struct) (seed j : Z) : Z :=
  if (Z.rem j 32 =? 31) || (j =? to_int (fsize root - 1)) then 10
  else wrap_signed 8 (97 + Z.rem (to_int (seed + to_int (j * 1723))) 26).

(** The loop of [testfs_read]: the bytes stored at [buf[0]], [buf[1]], ...
    [i] is [int] and is compared with the [size_t] [size] as
    [unsigned long]; [j = i + offset] is computed in [off_t] and stored in
    an [int]. *)
Fixpoint read_loop (fuel : nat) (root : root_struct) (seed size offset i : Z)
    : list Z :=
  match fuel with
  | O => []
  | S fuel' =>
      if to_ulong i <? size then
        let j := to_int (to_long (i + offset)) in
        content_byte root seed j
          :: read_loop fuel' root seed size offset (to_int (i + 1))
      else []
  end.

(** The body of [testfs_read] after its checks: the return value and the
    bytes stored in [buf].  [size] is a [size_t], [offset] an [off_t]; the
    difference [root.fsize - offset] is an [off_t] and is converted to
    [unsigned long] when compared with and assigned to [size]. *)
Definition read_content (root : root_struct) (path : string)
    (size offset : Z) : Z * list Z :=
  let left := to_ulong (to_long (fsize root - offset)) in
  let size := if left <? size then left else size in
  if size <=? 0 then (0, [])
  else
    let seed := seed_from_path path in
    (to_int size, read_loop (Z.to_nat size) root seed size offset 0).

Definition testfs_read (path : string) (flags : Z) (size offset : Z)
    : Z * list Z :=
  match file_checks path flags with
  | inl err => (err, [])
  | inr root => read_content root path size offset
  end.

Definition ascii_of_byte (b : Z) : ascii := ascii_of_nat (Z.to_nat b).

Definition string_of_bytes (l : list Z) : string :=
  string_of_list_ascii (map ascii_of_byte l).

(** ** Vocabulary of the statements *)

(** What [parse_root] establishes about the struct it fills. *)
Record root_ok (root : root_struct) : Prop := {
  depth_range : 0 <= depth root <= Z.of_nat MAXTOK;
  width_cells : List.length (width root) = MAXTOK;
  width_range : forall i, 0 <= i < depth root ->
                  1 <= nth (Z.to_nat i) (width root) 0 <= MAXWIDTH
}.

(** The numbers [0 .. w-1]. *)
Definition upto (w : Z) : list Z := map Z.of_nat (seq 0 (Z.to_nat w)).

(** A path that names a file of the tree: it has [depth + 1] tokens and
    the last one starts with a numeral in the range of the last layer. *)
Definition valid_file_path (path : string) (root : root_struct) : Prop :=
  let tok := parse_path path in
  1 <= ntok_of tok /\
  parse_root (tok_at tok 0) = Some root /\
  ntok_of tok = depth root + 1 /\
  exists val,
    sscanf_d "" (tok_at tok (ntok_of tok - 1)) = Assigned val /\
    0 <= val < width_at root (depth root - 1).

(** The [n] bytes of the file from position [j] on. *)
Fixpoint file_bytes (root : root_struct) (seed j : Z) (n : nat) : list Z :=
  match n with
  | O => []
  | S n' => content_byte root seed j :: file_bytes root seed (j + 1) n'
  end.

(** The first [fuel] tokens [strtok] yields with the delimiter [d], from
    the state [p] of the scan on. *)
Fixpoint strtok_all (fuel : nat) (d : ascii) (p : option (string * string))
    : list string :=
  match p, fuel with
  | Some (tok, rest), S fuel' => tok :: strtok_all fuel' d (strtok d rest)
  | _, _ => []
  end.

(** The test [parse_root] puts on a width token, negated:
    [!(val <= 0 || val > MAXWIDTH)]. *)
Definition valid_width (tok : string) : bool :=
  negb ((atoi tok <=? 0) || (atoi tok >? MAXWIDTH)).

(** The sum of the products of neighbouring character codes, [x] being
    the code before the first character. *)
Fixpoint adjacent_products (p : string) (x : Z) : Z :=
  match p with
  | EmptyString => 0
  | String c p' =>
      Z.of_nat (nat_of_ascii c) * x
      + adjacent_products p' (Z.of_nat (nat_of_ascii c))
  end.

(** A path of ASCII characters (codes below 128). *)
Definition ascii_path (path : string) : Prop :=
  Forall (fun c => (nat_of_ascii c < 128)%nat) (list_ascii_of_string path).

(** A byte of a generated file: a newline or a lowercase letter. *)
Definition letter_or_newline (b : Z) : Prop := b = 10 \/ 97 <= b <= 122.

(** ** Sample runs *)

Example parse_root_1kx5x4 :
  parse_root "1kx5x4" = Some (mkRoot 1024 2 (5 :: 4 :: repeat 0 14)).
Proof. vm_compute. reflexivity. Qed.

(** The first line of [cat /tmp/testfs/1kx5x4/2/3] in the program's header. *)
Example read_sample :
  string_of_bytes (firstn 31 (snd (testfs_read "/1kx5x4/2/3" O_RDONLY 64 0)))
  = "hovcjqxelszgnubipwdkryfmtahovcj".
Proof. vm_compute. reflexivity. Qed.

(** ** Properties of the integer conversions *)

Section Conversions.

Lemma to_int_small (n : Z) : INT_MIN <= n <= INT_MAX -> to_int n = n.
Proof.
  unfold to_int, wrap_signed, INT_MIN, INT_MAX. intros H.
  change (2 ^ (32 - 1)) with 2147483648. change (2 ^ 32) with 4294967296.
  rewrite Z.mod_small; lia.
Qed.

Lemma to_long_small (n : Z) : LONG_MIN <= n <= LONG_MAX -> to_long n = n.
Proof.
  unfold to_long, wrap_signed, LONG_MIN, LONG_MAX. intros H.
  change (2 ^ (64 - 1)) with 9223372036854775808.
  change (2 ^ 64) with 18446744073709551616.
  rewrite Z.mod_small; lia.
Qed.

Lemma to_ulong_small (n : Z) : 0 <= n <= LONG_MAX -> to_ulong n = n.
Proof.
  unfold to_ulong, wrap_unsigned, LONG_MAX. intros H.
  change (2 ^ 64) with 18446744073709551616.
  rewrite Z.mod_small; lia.
Qed.

(** A negative [long] becomes a large [unsigned long]. *)
Lemma to_ulong_negative (n : Z) :
  LONG_MIN <= n < 0 -> to_ulong n = n + 18446744073709551616.
Proof.
  unfold to_ulong, wrap_unsigned, LONG_MIN. intros H.
  change (2 ^ 64) with 18446744073709551616.
  symmetry. apply Z.mod_unique with (q := -1); lia.
Qed.

Lemma to_int_range (n : Z) : INT_MIN <= to_int n <= INT_MAX.
Proof.
  unfold to_int, wrap_signed, INT_MIN, INT_MAX.
  change (2 ^ (32 - 1)) with 2147483648. change (2 ^ 32) with 4294967296.
  pose proof (Z.mod_pos_bound (n + 2147483648) 4294967296). lia.
Qed.

End Conversions.

(** ** Properties of the tokenizers *)

Section Tokens.

Lemma parse_path_loop_length (fuel : nat) (p : option (string * string)) :
  (List.length (parse_path_loop fuel p) <= fuel)%nat.
Proof.
  revert p. induction fuel as [|fuel IH]; intros [[tok rest]|]; simpl; try lia.
  specialize (IH (strtok "/" rest)). lia.
Qed.

(** [parse_path] never returns more than [MAXTOK]. *)
Lemma parse_path_length (path : string) :
  (List.length (parse_path path) <= MAXTOK)%nat.
Proof. apply parse_path_loop_length. Qed.

Lemma ntok_of_cons (t0 : string) (rest : list string) :
  ntok_of (t0 :: rest) = Z.of_nat (List.length rest) + 1.
Proof. unfold ntok_of. simpl List.length. lia. Qed.

Lemma tok_at_0 (t0 : string) (rest : list string) : tok_at (t0 :: rest) 0 = t0.
Proof. reflexivity. Qed.

Lemma last_nonempty_default (a d d' : string) (l : list string) :
  last (a :: l) d = last (a :: l) d'.
Proof.
  revert a. induction l as [|b l IH]; intros a; [reflexivity|].
  change (last (b :: l) d = last (b :: l) d'). apply IH.
Qed.

(** The last token, [tok[ntok - 1]]. *)
Lemma tok_at_last (t0 : string) (rest : list string) :
  tok_at (t0 :: rest) (ntok_of (t0 :: rest) - 1) = last rest t0.
Proof.
  rewrite ntok_of_cons. unfold tok_at.
  replace (Z.to_nat (Z.of_nat (List.length rest) + 1 - 1)) with (List.length rest) by lia.
  revert t0. induction rest as [|a rest IH]; intros t0; [reflexivity|].
  change (nth (List.length rest) (a :: rest) EmptyString = last (a :: rest) t0).
  rewrite IH. destruct rest as [|b rest]; [reflexivity|].
  change (last (b :: rest) a = last (b :: rest) t0).
  apply last_nonempty_default.
Qed.

(** A path with a token is not the mount point itself. *)
Lemma tokens_not_mount_point (path t0 : string) (rest : list string) :
  parse_path path = t0 :: rest -> String.eqb path "/" = false.
Proof.
  intros H. destruct (String.eqb_spec path "/") as [->|]; [|reflexivity].
  discriminate H.
Qed.

End Tokens.

(** ** Properties of the root descriptor parser *)

Section RootDescriptor.

Lemma set_nth_length (n : nat) (v : Z) (l : list Z) :
  List.length (set_nth n v l) = List.length l.
Proof.
  revert n. induction l as [|h t IH]; intros [|n]; simpl; auto.
Qed.

Lemma set_nth_same (n : nat) (v : Z) (l : list Z) :
  (n < List.length l)%nat -> nth n (set_nth n v l) 0 = v.
Proof.
  revert n. induction l as [|h t IH]; intros [|n]; simpl; intros H; try lia.
  apply IH. lia.
Qed.

Lemma set_nth_other (n m : nat) (v : Z) (l : list Z) :
  n <> m -> nth m (set_nth n v l) 0 = nth m l 0.
Proof.
  revert n m. induction l as [|h t IH]; intros n m H.
  - destruct n; reflexivity.
  - destruct n as [|n], m as [|m]; simpl; try reflexivity; try lia.
    apply IH. lia.
Qed.

Lemma parse_widths_ok (fuel : nat) :
  forall p root root',
    root_ok root ->
    depth root + Z.of_nat fuel <= Z.of_nat MAXTOK ->
    parse_widths fuel p root = Some root' ->
    root_ok root' /\ fsize root' = fsize root.
Proof.
  induction fuel as [|fuel IH]; intros p root root' Hok Hroom Hp.
  - destruct p as [[tok rest]|]; simpl in Hp; inversion Hp; subst; auto.
  - destruct p as [[tok rest]|]; simpl in Hp; [|inversion Hp; subst; auto].
    destruct ((atoi tok <=? 0) || (atoi tok >? MAXWIDTH)) eqn:Hval;
      [discriminate|].
    apply orb_false_iff in Hval. destruct Hval as [Hlo Hhi].
    apply Z.leb_gt in Hlo. rewrite Z.gtb_ltb in Hhi. apply Z.ltb_ge in Hhi.
    destruct Hok as [Hd Hlen Hw]. rewrite Nat2Z.inj_succ in Hroom.
    apply IH in Hp.
    + exact Hp.
    + constructor; cbn [depth width].
      * lia.
      * rewrite set_nth_length. exact Hlen.
      * intros i Hi. destruct (Z.eq_dec i (depth root)) as [->|Hne].
        -- rewrite set_nth_same; [lia|]. rewrite Hlen. unfold MAXTOK in *. lia.
        -- rewrite set_nth_other by lia. apply Hw. lia.
    + cbn [depth]. lia.
Qed.

(** A descriptor that parses has between 0 and 16 layers, each of a width
    between 1 and [MAXWIDTH]. *)
Lemma parse_root_ok (str : string) (root : root_struct) :
  parse_root str = Some root -> root_ok root.
Proof.
  unfold parse_root. intros H.
  destruct (strtok "x" str) as [[p rest]|]; [|discriminate].
  destruct (parse_fsize p) as [fs|]; [|discriminate].
  apply parse_widths_ok in H.
  - tauto.
  - constructor; cbn [depth width]; [unfold MAXTOK; lia | reflexivity | lia].
  - cbn [depth]. lia.
Qed.

(** The width the handlers read at [depth - 1 ... 0]. *)
Lemma width_at_layer (root : root_struct) (i : Z) :
  root_ok root -> 0 <= i < depth root ->
  1 <= width_at root i <= MAXWIDTH.
Proof.
  intros Hok Hi. unfold width_at.
  destruct (i =? -1) eqn:E; [apply Z.eqb_eq in E; lia|].
  apply (width_range root Hok). exact Hi.
Qed.

(** Whatever format the cascade tries, the first one already accepts every
    token that starts with a numeral: the size is always the numeral times
    1024 (as an [int]), whatever the suffix. *)
Lemma parse_fsize_first_branch (p : string) :
  parse_fsize p =
    match sscanf_d "k" p with
    | Assigned val => Some (to_int (val * 1024))
    | _ => None
    end.
Proof.
  unfold parse_fsize, sscanf_d.
  destruct (numeral p); [reflexivity|].
  destruct (skip_space p); reflexivity.
Qed.

(** [sscanf (...) == 1] holds exactly for the outcome [Assigned]. *)
Lemma scan_count_one (r : scan_result) :
  scan_count r = 1 <-> exists val, r = Assigned val.
Proof.
  destruct r as [val| |]; simpl; split; intros H; try discriminate.
  - exists val. reflexivity.
  - reflexivity.
  - destruct H as [v H]. discriminate.
  - destruct H as [v H]. discriminate.
Qed.

(** The size of every descriptor that parses is its numeral times 1024. *)
Lemma parse_root_fsize_times_1024 (str : string) (root : root_struct) :
  parse_root str = Some root ->
  exists p rest val,
    strtok "x" str = Some (p, rest) /\
    sscanf_d "" p = Assigned val /\
    fsize root = to_int (val * 1024).
Proof.
  unfold parse_root. intros H.
  destruct (strtok "x" str) as [[p rest]|]; [|discriminate].
  destruct (parse_fsize p) as [fs|] eqn:Hfs; [|discriminate].
  rewrite parse_fsize_first_branch in Hfs.
  destruct (sscanf_d "k" p) as [val| |] eqn:Hscan; try discriminate.
  inversion Hfs; subst fs.
  apply parse_widths_ok in H.
  - destruct H as [_ Hsize]. exists p, rest, val.
    split; [reflexivity|]. split; [exact Hscan | exact Hsize].
  - constructor; cbn [depth width]; [unfold MAXTOK; lia | reflexivity | lia].
  - cbn [depth]. lia.
Qed.

End RootDescriptor.

(** ** Properties of the handlers *)

Section Handlers.

(** The loop of [testfs_readdir] stops by its own test after [w - i]
    rounds, whatever fuel is left. *)
Lemma readdir_loop_names (fuel : nat) :
  forall i w, 0 <= i -> w - i <= Z.of_nat fuel ->
    readdir_loop fuel i w
    = map (fun k => sprintf_d (i + Z.of_nat k)) (seq 0 (Z.to_nat (w - i))).
Proof.
  induction fuel as [|fuel IH]; intros i w Hi Hf.
  - replace (Z.to_nat (w - i)) with O by lia. reflexivity.
  - cbn [readdir_loop]. destruct (i <? w) eqn:E.
    + apply Z.ltb_lt in E.
      replace (Z.to_nat (w - i)) with (S (Z.to_nat (w - (i + 1)))) by lia.
      cbn [seq map]. rewrite Z.add_0_r. f_equal.
      rewrite IH by lia. rewrite <- seq_shift, map_map.
      apply map_ext. intros k. f_equal. lia.
    + apply Z.ltb_ge in E.
      replace (Z.to_nat (w - i)) with O by lia. reflexivity.
Qed.

Lemma readdir_loop_upto (w : Z) :
  0 <= w -> readdir_loop (Z.to_nat w) 0 w = map sprintf_d (upto w).
Proof.
  intros Hw. rewrite (readdir_loop_names (Z.to_nat w) 0 w) by lia.
  unfold upto. rewrite map_map, Z.sub_0_r. reflexivity.
Qed.

Lemma file_checks_valid (path : string) (root : root_struct) (flags : Z) :
  valid_file_path path root ->
  file_checks path flags
  = if Z.land flags 3 =? O_RDONLY then inr root else inl (- EACCES).
Proof.
  intros (Hn & Hroot & Hd & val & Hval & Hrange). unfold file_checks.
  destruct (ntok_of (parse_path path) <? 1) eqn:E;
    [apply Z.ltb_lt in E; lia|].
  rewrite Hroot. rewrite (proj2 (Z.eqb_eq _ _) Hd). cbn [negb].
  rewrite Hval.
  destruct (val <? 0) eqn:E1; [apply Z.ltb_lt in E1; lia|].
  destruct (val >=? width_at root (depth root - 1)) eqn:E2;
    [rewrite Z.geb_leb in E2; apply Z.leb_le in E2; lia|].
  cbn [orb]. destruct (Z.land flags 3 =? O_RDONLY); reflexivity.
Qed.

Lemma file_checks_inr (path : string) (root : root_struct) (flags : Z) :
  file_checks path flags = inr root ->
  valid_file_path path root /\ Z.land flags 3 = O_RDONLY.
Proof.
  unfold file_checks, valid_file_path. intros H.
  destruct (ntok_of (parse_path path) <? 1) eqn:E; [discriminate|].
  apply Z.ltb_ge in E.
  destruct (parse_root (tok_at (parse_path path) 0)) as [r|]; [|discriminate].
  destruct (ntok_of (parse_path path) =? depth r + 1) eqn:Ed;
    [|discriminate].
  apply Z.eqb_eq in Ed. cbn [negb] in H.
  destruct (sscanf_d "" (tok_at (parse_path path) (ntok_of (parse_path path) - 1)))
    as [val| |] eqn:Hval; try discriminate.
  destruct (val <? 0) eqn:E1; [discriminate|].
  destruct (val >=? width_at r (depth r - 1)) eqn:E2; [discriminate|].
  cbn [orb] in H.
  destruct (Z.land flags 3 =? O_RDONLY) eqn:Ef; [|discriminate].
  cbn [negb] in H. inversion H; subst r.
  apply Z.ltb_ge in E1. rewrite Z.geb_leb in E2. apply Z.leb_gt in E2.
  apply Z.eqb_eq in Ef.
  repeat split; try assumption. exists val. repeat split; lia.
Qed.

End Handlers.

(** ** The content of a file *)

Section Content.

Variable root : root_struct.
Variable seed : Z.

Lemma file_bytes_length (j : Z) (n : nat) : List.length (file_bytes root seed j n) = n.
Proof. revert j. induction n as [|n IH]; intros j; simpl; auto. Qed.

Lemma file_bytes_skipn (m n : nat) (j : Z) :
  skipn m (file_bytes root seed j (m + n)) = file_bytes root seed (j + Z.of_nat m) n.
Proof.
  revert j. induction m as [|m IH]; intros j.
  - simpl. f_equal. lia.
  - change (skipn m (file_bytes root seed (j + 1) (m + n))
            = file_bytes root seed (j + Z.of_nat (S m)) n).
    rewrite IH. f_equal. lia.
Qed.

Lemma file_bytes_firstn (m n : nat) (j : Z) :
  firstn m (file_bytes root seed j (m + n)) = file_bytes root seed j m.
Proof.
  revert j. induction m as [|m IH]; intros j; [reflexivity|].
  simpl. f_equal. apply IH.
Qed.

Lemma file_bytes_last (n : nat) (j d : Z) :
  last (file_bytes root seed j (S n)) d = content_byte root seed (j + Z.of_nat n).
Proof.
  revert j. induction n as [|n IH]; intros j.
  - simpl. f_equal. lia.
  - change (last (file_bytes root seed (j + 1) (S n)) d
            = content_byte root seed (j + Z.of_nat (S n))).
    rewrite IH. f_equal. lia.
Qed.

(** The slice [off, off + sz) of the first [len] bytes. *)
Lemma file_bytes_slice (off sz len : nat) :
  (off + sz <= len)%nat ->
  firstn sz (skipn off (file_bytes root seed 0 len)) = file_bytes root seed (Z.of_nat off) sz.
Proof.
  intros H.
  replace len with (off + (sz + (len - off - sz)))%nat by lia.
  rewrite file_bytes_skipn, file_bytes_firstn. reflexivity.
Qed.

(** The loop of [testfs_read], for a request that fits in an [int] and
    stays below [INT_MAX] in the file: it stops by its own test after
    [size - i] rounds, whatever fuel is left, and stores the bytes of the
    positions [i + offset ...]. *)
Lemma read_loop_bytes (size offset : Z) (fuel : nat) :
  forall i,
    0 <= i <= size -> 0 <= offset -> size + offset <= INT_MAX ->
    size - i <= Z.of_nat fuel ->
    read_loop fuel root seed size offset i
    = file_bytes root seed (i + offset) (Z.to_nat (size - i)).
Proof.
  unfold INT_MAX.
  induction fuel as [|fuel IH]; intros i Hi Ho Hs Hf.
  - replace (Z.to_nat (size - i)) with O by lia. reflexivity.
  - cbn [read_loop].
    rewrite to_ulong_small by (unfold LONG_MAX; lia).
    destruct (i <? size) eqn:E.
    + apply Z.ltb_lt in E.
      replace (Z.to_nat (size - i)) with (S (Z.to_nat (size - (i + 1)))) by lia.
      cbn [file_bytes].
      rewrite to_long_small by (unfold LONG_MIN, LONG_MAX; lia).
      rewrite !to_int_small by (unfold INT_MIN, INT_MAX; lia).
      f_equal. rewrite IH by lia. f_equal. lia.
    + apply Z.ltb_ge in E.
      replace (Z.to_nat (size - i)) with O by lia. reflexivity.
Qed.

End Content.

Section Read.

Lemma parse_fsize_range (p : string) (fs : Z) :
  parse_fsize p = Some fs -> INT_MIN <= fs <= INT_MAX.
Proof.
  rewrite parse_fsize_first_branch.
  destruct (sscanf_d "k" p); intros H; inversion H. apply to_int_range.
Qed.

Lemma parse_root_fsize_range (str : string) (root : root_struct) :
  parse_root str = Some root -> INT_MIN <= fsize root <= INT_MAX.
Proof.
  unfold parse_root. intros H.
  destruct (strtok "x" str) as [[p rest]|]; [|discriminate].
  destruct (parse_fsize p) as [fs|] eqn:Hfs; [|discriminate].
  apply parse_widths_ok in H.
  - destruct H as [_ ->]. cbn [fsize]. eapply parse_fsize_range; eauto.
  - constructor; cbn [depth width]; [unfold MAXTOK; lia | reflexivity | lia].
  - cbn [depth]. lia.
Qed.

(** A request inside the file is served as it is. *)
Lemma read_content_inside (root : root_struct) (path : string)
    (size offset : Z) :
  fsize root <= INT_MAX ->
  0 <= offset -> 0 <= size -> offset + size <= fsize root ->
  read_content root path size offset
  = (size, file_bytes root (seed_from_path path) offset (Z.to_nat size)).
Proof.
  unfold INT_MAX. intros Hfs Ho Hs Hin. unfold read_content.
  rewrite to_long_small by (unfold LONG_MIN, LONG_MAX; lia).
  rewrite to_ulong_small by (unfold LONG_MAX; lia).
  destruct (fsize root - offset <? size) eqn:E; [apply Z.ltb_lt in E; lia|].
  destruct (size <=? 0) eqn:E0.
  - apply Z.leb_le in E0. replace size with 0 by lia. reflexivity.
  - apply Z.leb_gt in E0.
    rewrite to_int_small by (unfold INT_MIN, INT_MAX; lia).
    rewrite read_loop_bytes by (unfold INT_MAX; lia).
    rewrite Z.sub_0_r. reflexivity.
Qed.

(** A request that starts exactly at the end of the file is empty. *)
Lemma read_content_at_end (root : root_struct) (path : string) (size : Z) :
  0 <= size ->
  INT_MIN <= fsize root <= INT_MAX ->
  read_content root path size (fsize root) = (0, []).
Proof.
  intros Hs _. unfold read_content. rewrite Z.sub_diag.
  change (to_ulong (to_long 0)) with 0.
  destruct (0 <? size) eqn:E; [reflexivity|].
  apply Z.ltb_ge in E. replace size with 0 by lia. reflexivity.
Qed.

(** A request that starts past the end of the file is not clamped: the
    negative difference is compared as an [unsigned long], so [size] bytes
    are produced. *)
Lemma read_content_past_end (root : root_struct) (path : string)
    (size offset : Z) :
  0 <= fsize root ->
  fsize root < offset -> 0 < size -> size + offset <= INT_MAX ->
  read_content root path size offset
  = (size, file_bytes root (seed_from_path path) offset (Z.to_nat size)).
Proof.
  unfold INT_MAX. intros Hfs Ho Hs Hin. unfold read_content.
  rewrite to_long_small by (unfold LONG_MIN, LONG_MAX; lia).
  rewrite to_ulong_negative by (unfold LONG_MIN; lia).
  destruct (fsize root - offset + 18446744073709551616 <? size) eqn:E;
    [apply Z.ltb_lt in E; lia|].
  destruct (size <=? 0) eqn:E0; [apply Z.leb_le in E0; lia|].
  rewrite to_int_small by (unfold INT_MIN, INT_MAX; lia).
  rewrite read_loop_bytes by (unfold INT_MAX; lia).
  rewrite Z.sub_0_r. reflexivity.
Qed.

End Read.

(** ** The handlers on a tokenized path *)

Section OnTokens.

Variables (path t0 : string) (rest : list string).
Hypothesis Htok : parse_path path = t0 :: rest.

Lemma ntok_of_cons_pos : (ntok_of (t0 :: rest) <? 1) = false.
Proof. apply Z.ltb_ge. rewrite ntok_of_cons. lia. Qed.

Lemma getattr_on_tokens (stbuf : stat) :
  testfs_getattr path stbuf =
    match parse_root t0 with
    | None => (- ENOENT, zero_stat)
    | Some root =>
        if ntok_of (t0 :: rest) <=? depth root then (0, mkStat dir_mode 2 0)
        else if ntok_of (t0 :: rest) =? depth root + 1
             then (0, mkStat reg_mode 1 (fsize root))
             else (- ENOENT, zero_stat)
    end.
Proof.
  unfold testfs_getattr.
  rewrite (tokens_not_mount_point _ _ _ Htok), Htok, ntok_of_cons_pos, tok_at_0.
  reflexivity.
Qed.

Lemma readdir_on_tokens :
  testfs_readdir path =
    match parse_root t0 with
    | None => (- ENOENT, [])
    | Some root =>
        if ntok_of (t0 :: rest) >? depth root then (- ENOENT, [])
        else
          let w := width_at root (ntok_of (t0 :: rest) - 1) in
          (0, "." :: ".." :: readdir_loop (Z.to_nat w) 0 w)
    end.
Proof.
  unfold testfs_readdir.
  rewrite (tokens_not_mount_point _ _ _ Htok), Htok, ntok_of_cons_pos, tok_at_0.
  reflexivity.
Qed.

Lemma file_checks_on_tokens (flags : Z) :
  file_checks path flags =
    match parse_root t0 with
    | None => inl (- ENOENT)
    | Some root =>
        if negb (ntok_of (t0 :: rest) =? depth root + 1) then inl (- ENOENT)
        else
          match sscanf_d "" (last rest t0) with
          | Assigned val =>
              if (val <? 0) || (val >=? width_at root (depth root - 1))
              then inl (- ENOENT)
              else if negb (Z.land flags 3 =? O_RDONLY) then inl (- EACCES)
              else inr root
          | _ => inl (- ENOENT)
          end
    end.
Proof.
  unfold file_checks.
  rewrite Htok, ntok_of_cons_pos, tok_at_0, tok_at_last. reflexivity.
Qed.

(** The classification of [testfs_getattr], by the number of tokens
    [parse_path] returned after the root token. *)
Lemma getattr_classifies (root : root_struct) (stbuf : stat) :
  parse_root t0 = Some root ->
  let k := Z.of_nat (List.length rest) in
  (k < depth root -> testfs_getattr path stbuf = (0, mkStat dir_mode 2 0)) /\
  (k = depth root ->
     testfs_getattr path stbuf = (0, mkStat reg_mode 1 (fsize root))) /\
  (k > depth root -> testfs_getattr path stbuf = (- ENOENT, zero_stat)).
Proof.
  intros Hroot k. rewrite getattr_on_tokens, Hroot, ntok_of_cons. fold k.
  repeat split; intros Hk.
  - destruct (k + 1 <=? depth root) eqn:E; [reflexivity|].
    apply Z.leb_gt in E. lia.
  - destruct (k + 1 <=? depth root) eqn:E; [apply Z.leb_le in E; lia|].
    rewrite (proj2 (Z.eqb_eq _ _)) by lia. reflexivity.
  - destruct (k + 1 <=? depth root) eqn:E; [apply Z.leb_le in E; lia|].
    destruct (k + 1 =? depth root + 1) eqn:E'; [apply Z.eqb_eq in E'; lia|].
    reflexivity.
Qed.

End OnTokens.

(** The byte the generator yields where no [int] overflows: newline at the
    end of each block of 32 and at the end of the file, a lowercase letter
    elsewhere. *)
Lemma content_byte_in_range (root : root_struct) (seed j : Z) :
  0 <= j -> 0 <= seed -> seed + j * 1723 <= INT_MAX ->
  1 <= fsize root <= INT_MAX ->
  content_byte root seed j =
    if (j mod 32 =? 31) || (j =? fsize root - 1) then 10
    else 97 + (seed + j * 1723) mod 26.
Proof.
  unfold INT_MAX. intros Hj Hs Hsum Hf. unfold content_byte.
  rewrite (to_int_small (fsize root - 1)) by (unfold INT_MIN, INT_MAX; lia).
  rewrite Z.rem_mod_nonneg by lia.
  destruct ((j mod 32 =? 31) || (j =? fsize root - 1)); [reflexivity|].
  rewrite (to_int_small (j * 1723)) by (unfold INT_MIN, INT_MAX; lia).
  rewrite to_int_small by (unfold INT_MIN, INT_MAX; lia).
  rewrite Z.rem_mod_nonneg by lia.
  pose proof (Z.mod_pos_bound (seed + j * 1723) 26 ltac:(lia)) as Hm.
  unfold wrap_signed. change (2 ^ (8 - 1)) with 128. change (2 ^ 8) with 256.
  rewrite Z.mod_small; lia.
Qed.

(** Settles [valid_file_path] on a concrete path by evaluation; [v] is the
    number the last token holds. *)
Ltac valid_file_by_eval v :=
  unfold valid_file_path; cbv zeta;
  split; [vm_compute; discriminate|];
  split; [vm_compute; reflexivity|];
  split; [vm_compute; reflexivity|];
  exists v; split; [vm_compute; reflexivity|];
  vm_compute; split; [discriminate | reflexivity].

(** * The claims *)

(** ** C1: the unit suffix of the size token *)

(** C1.  The size token is meant to be scaled by its unit suffix (k/K by
    1024, m/M by 1024^2, g/G by 1024^3, nothing by 1).  The program scales
    every numeral by 1024: the first format of the cascade, ["%dk"],
    already reports one assigned item for any token that starts with a
    numeral ([parse_fsize_first_branch]).  So [1m] and [1g] give 1024
    bytes, not 1048576 and 1073741824, and a bare [100] gives 102400. *)
Theorem parse_root_suffix_ignored :
  parse_root "1mx5x4" = Some (mkRoot 1024 2 (5 :: 4 :: repeat 0 14)) /\
  parse_root "1Mx5x4" = Some (mkRoot 1024 2 (5 :: 4 :: repeat 0 14)) /\
  parse_root "1gx5x4" = Some (mkRoot 1024 2 (5 :: 4 :: repeat 0 14)) /\
  parse_root "1Gx5x4" = Some (mkRoot 1024 2 (5 :: 4 :: repeat 0 14)) /\
  parse_root "100x5x4" = Some (mkRoot 102400 2 (5 :: 4 :: repeat 0 14)) /\
  parse_root "1kx5x4" = Some (mkRoot 1024 2 (5 :: 4 :: repeat 0 14)).
Proof. repeat split; vm_compute; reflexivity. Qed.

(** ** C2: reads at and past the end of the file *)

(** C2.  A read at [offset = file_size] is empty, but a read past the end
    is not: for the 1024-byte file [/1kx5x4/2/3], a request of 10 bytes at
    offset 2000 returns 10 bytes.  [root.fsize - offset] is negative there
    and is compared with the unsigned [size] as a huge positive number, so
    the clamp does not fire ([read_content_past_end]). *)
Theorem read_past_end_not_clamped :
  file_checks "/1kx5x4/2/3" O_RDONLY
    = inr (mkRoot 1024 2 (5 :: 4 :: repeat 0 14)) /\
  testfs_read "/1kx5x4/2/3" O_RDONLY 10 1024 = (0, []) /\
  testfs_read "/1kx5x4/2/3" O_RDONLY 10 2000
    = (10, [116; 97; 104; 111; 118; 99; 106; 113; 120; 101]).
Proof. repeat split; vm_compute; reflexivity. Qed.

(** The general form of the first half of C2: for every file of the tree
    opened read-only, a read at [offset = file_size] returns zero bytes. *)
Lemma read_at_end_empty (path : string) (root : root_struct) (size : Z) :
  valid_file_path path root -> 0 <= size ->
  testfs_read path O_RDONLY size (fsize root) = (0, []).
Proof.
  intros Hv Hs. unfold testfs_read.
  rewrite (file_checks_valid _ _ O_RDONLY Hv). cbn.
  apply read_content_at_end; [exact Hs|].
  destruct Hv as (_ & Hroot & _).
  eapply parse_root_fsize_range; eauto.
Qed.

(** The general form of the failure of the second half: for every file,
    a read-only read that starts past the end returns [size] bytes. *)
Lemma read_past_end_returns_size (path : string) (root : root_struct)
    (size offset : Z) :
  valid_file_path path root ->
  0 <= fsize root < offset -> 0 < size -> size + offset <= INT_MAX ->
  fst (testfs_read path O_RDONLY size offset) = size.
Proof.
  intros Hv Ho Hs Hin. unfold testfs_read.
  rewrite (file_checks_valid _ _ O_RDONLY Hv). cbn [Z.land O_RDONLY Z.eqb].
  rewrite read_content_past_end by lia. reflexivity.
Qed.

(** ** C3: malformed descriptors *)

(** C3, the claim as stated fails for [x5x4]: [strtok] skips the leading
    delimiter, the size token is [5] and one layer of width 4 follows, so
    the descriptor parses and [/x5x4] is a directory. *)
Lemma leading_delimiter_descriptor_parses :
  parse_root "x5x4" = Some (mkRoot 5120 1 (4 :: repeat 0 15)) /\
  fst (testfs_getattr "/x5x4" zero_stat) <> - ENOENT /\
  fst (testfs_readdir "/x5x4") <> - ENOENT /\
  testfs_open "/x5x4/3" O_RDONLY <> - ENOENT /\
  fst (testfs_read "/x5x4/3" O_RDONLY 16 0) <> - ENOENT.
Proof. repeat split; vm_compute; discriminate. Qed.

(** C3, amended.  For every path (that fits the path buffer) whose first
    segment is [5x0x3] the descriptor does not parse (a width of zero) and
    each of the four handlers reports not-found.  The segment [x5x4] does
    parse: the leading delimiter is skipped and one layer of width 4
    follows the size token. *)
Theorem zero_width_descriptor_not_found :
  forall (path : string) (rest : list string),
    (String.length path < 256)%nat ->
    parse_path path = "5x0x3" :: rest ->
    parse_root "5x0x3" = None /\
    (forall stbuf, fst (testfs_getattr path stbuf) = - ENOENT) /\
    testfs_readdir path = (- ENOENT, []) /\
    (forall flags, testfs_open path flags = - ENOENT) /\
    (forall flags size offset,
        testfs_read path flags size offset = (- ENOENT, [])) /\
    exists fs, parse_root "x5x4" = Some (mkRoot fs 1 (4 :: repeat 0 15)).
Proof.
  intros path rest Hfit Htok.
  assert (Hnone : parse_root "5x0x3" = None) by (vm_compute; reflexivity).
  split; [|split; [|split; [|split; [|split]]]].
  - exact Hnone.
  - intros stbuf. rewrite (getattr_on_tokens _ _ _ Htok), Hnone. reflexivity.
  - rewrite (readdir_on_tokens _ _ _ Htok), Hnone. reflexivity.
  - intros flags. unfold testfs_open.
    rewrite (file_checks_on_tokens _ _ _ Htok), Hnone. reflexivity.
  - intros flags size offset. unfold testfs_read.
    rewrite (file_checks_on_tokens _ _ _ Htok), Hnone. reflexivity.
  - eexists. vm_compute. reflexivity.
Qed.

Lemma zero_width_descriptor_not_found_witness :
  (String.length "/5x0x3/1/2" < 256)%nat /\
  parse_path "/5x0x3/1/2" = ["5x0x3"; "1"; "2"] /\
  fst (testfs_getattr "/5x0x3/1/2" zero_stat) = - ENOENT /\
  testfs_readdir "/5x0x3/1/2" = (- ENOENT, []) /\
  testfs_open "/5x0x3/1/2" O_RDONLY = - ENOENT /\
  testfs_read "/5x0x3/1/2" O_RDONLY 16 0 = (- ENOENT, []).
Proof.
  assert (Htok : parse_path "/5x0x3/1/2" = ["5x0x3"; "1"; "2"])
    by (vm_compute; reflexivity).
  assert (Hfit : (String.length "/5x0x3/1/2" < 256)%nat)
    by (vm_compute; lia).
  destruct (zero_width_descriptor_not_found "/5x0x3/1/2" ["1"; "2"] Hfit Htok)
    as (_ & Hg & Hd & Ho & Hr & _).
  split; [exact Hfit|]. split; [exact Htok|].
  split; [apply Hg|]. split; [exact Hd|]. split; [apply Ho | apply Hr].
Defined.

(** ** C4: the access mode at open *)

(** C4, the claim as stated fails for an append flag next to the read-only
    access mode: only the two access-mode bits are looked at, so
    [O_RDONLY | O_APPEND] opens the file. *)
Lemma open_append_flag_accepted :
  valid_file_path "/1kx5x4/2/3" (mkRoot 1024 2 (5 :: 4 :: repeat 0 14)) /\
  Z.land (Z.lor O_RDONLY O_APPEND) O_APPEND = O_APPEND /\
  testfs_open "/1kx5x4/2/3" (Z.lor O_RDONLY O_APPEND) = 0 /\
  testfs_open "/1kx5x4/2/3" (Z.lor O_RDONLY O_APPEND) <> - EACCES.
Proof.
  split.
  - valid_file_by_eval 3.
  - repeat split; vm_compute; try reflexivity; discriminate.
Qed.

(** C4, amended.  For every file of the tree (whose path fits the path
    buffer), open succeeds exactly when
    the access mode (the two low bits of the flags) is read-only, and the
    other access modes, write-only and read-write, are refused with
    permission-denied.  The flags outside the access mode, [O_APPEND]
    among them, are not looked at. *)
Theorem open_access_mode :
  forall (path : string) (root : root_struct) (flags : Z),
    (String.length path < 256)%nat ->
    valid_file_path path root ->
    (testfs_open path flags = 0 <-> Z.land flags 3 = O_RDONLY) /\
    (Z.land flags 3 <> O_RDONLY -> testfs_open path flags = - EACCES) /\
    (forall other, Z.land other 3 = 0 ->
       testfs_open path (Z.lor O_WRONLY other) = - EACCES /\
       testfs_open path (Z.lor O_RDWR other) = - EACCES /\
       testfs_open path (Z.lor O_RDONLY other) = 0).
Proof.
  intros path root flags Hfit Hv.
  assert (Hopen : forall fl, testfs_open path fl
                   = if Z.land fl 3 =? O_RDONLY then 0 else - EACCES).
  { intros fl. unfold testfs_open. rewrite (file_checks_valid _ _ fl Hv).
    destruct (Z.land fl 3 =? O_RDONLY); reflexivity. }
  split; [|split].
  - rewrite Hopen. destruct (Z.land flags 3 =? O_RDONLY) eqn:E.
    + apply Z.eqb_eq in E. tauto.
    + apply Z.eqb_neq in E. split; [discriminate | tauto].
  - intros Hne. rewrite Hopen. apply Z.eqb_neq in Hne. rewrite Hne. reflexivity.
  - intros other Ho. rewrite !Hopen, !Z.land_lor_distr_l, Ho. repeat split.
Qed.

Lemma open_access_mode_witness :
  (String.length "/1kx5x4/2/3" < 256)%nat /\
  valid_file_path "/1kx5x4/2/3" (mkRoot 1024 2 (5 :: 4 :: repeat 0 14)) /\
  testfs_open "/1kx5x4/2/3" O_RDONLY = 0 /\
  testfs_open "/1kx5x4/2/3" (Z.lor O_WRONLY O_APPEND) = - EACCES /\
  testfs_open "/1kx5x4/2/3" O_RDWR = - EACCES.
Proof.
  assert (Hv : valid_file_path "/1kx5x4/2/3"
                 (mkRoot 1024 2 (5 :: 4 :: repeat 0 14))).
  { valid_file_by_eval 3. }
  assert (Hfit : (String.length "/1kx5x4/2/3" < 256)%nat)
    by (vm_compute; lia).
  split; [exact Hfit|]. split; [exact Hv|].
  split; [|split].
  - apply (proj1 (open_access_mode _ _ O_RDONLY Hfit Hv)). reflexivity.
  - apply (proj1 (proj2 (open_access_mode _ _ (Z.lor O_WRONLY O_APPEND)
                           Hfit Hv))).
    vm_compute. discriminate.
  - apply (proj1 (proj2 (open_access_mode _ _ O_RDWR Hfit Hv))).
    vm_compute. discriminate.
Defined.

(** ** C5: the generated bytes *)

(** Where the [int] arithmetic of the generator does not overflow, the byte
    a read returns at position [j] is the one C5 describes. *)
Lemma read_byte_in_range (path : string) (root : root_struct) (j : Z) :
  valid_file_path path root ->
  0 <= j < fsize root ->
  0 <= seed_from_path path ->
  seed_from_path path + j * 1723 <= INT_MAX ->
  testfs_read path O_RDONLY 1 j =
    (1, [if (j mod 32 =? 31) || (j =? fsize root - 1) then 10
         else 97 + (seed_from_path path + j * 1723) mod 26]).
Proof.
  intros Hv Hj Hseed Hsum. unfold testfs_read.
  rewrite (file_checks_valid _ _ O_RDONLY Hv). cbn [Z.land O_RDONLY Z.eqb].
  assert (Hfs : INT_MIN <= fsize root <= INT_MAX).
  { destruct Hv as (_ & Hroot & _). eapply parse_root_fsize_range; eauto. }
  rewrite read_content_inside by lia.
  change (Z.to_nat 1) with 1%nat. cbn [file_bytes].
  rewrite content_byte_in_range by lia. reflexivity.
Qed.

(** C5.  The bytes between the newlines are meant to be the lowercase
    letters at index [(seed + j*1723) mod 26].  The program computes
    [j*1723] and the sum in [int]: from position 1246364 on the product
    passes [INT_MAX], the sum wraps to a negative number, [%] yields a
    negative remainder and the byte falls below ['a'].  In the 2048000-byte
    file [/2000kx1/0] the byte at position 1246376 is 90 (['Z']), where the
    claim has the letter 97 + 15 (['p']). *)
Theorem content_byte_overflow_not_letter :
  file_checks "/2000kx1/0" O_RDONLY
    = inr (mkRoot 2048000 1 (1 :: repeat 0 15)) /\
  seed_from_path "/2000kx1/0" = 37773 /\
  (1246376 mod 32 =? 31) || (1246376 =? 2048000 - 1) = false /\
  testfs_read "/2000kx1/0" O_RDONLY 1 1246376 = (1, [90]) /\
  97 + (37773 + 1246376 * 1723) mod 26 = 112.
Proof. repeat split; vm_compute; reflexivity. Qed.

(** ** C6: the classification by attribute lookup *)

(** C6.  The classification is meant to go by the number [k] of segments
    after the root segment.  The program counts the tokens [parse_path]
    returns, and [parse_path] stops at [MAXTOK] = 16 tokens, while a tree
    may have 16 layers and so needs 17.  Under a 16-layer descriptor a path
    with [k = 16] selectors is reported as a directory, not a file, and so
    is one with [k = 17 > depth]; under a 15-layer descriptor a path with
    [k = 17 > depth] selectors is reported as a regular file. *)
Theorem getattr_token_cap :
  parse_root "1x1x1x1x1x1x1x1x1x1x1x1x1x1x1x1x1"
    = Some (mkRoot 1024 16 (repeat 1 16)) /\
  testfs_getattr
    "/1x1x1x1x1x1x1x1x1x1x1x1x1x1x1x1x1/0/0/0/0/0/0/0/0/0/0/0/0/0/0/0/0"
    zero_stat = (0, mkStat dir_mode 2 0) /\
  testfs_getattr
    "/1x1x1x1x1x1x1x1x1x1x1x1x1x1x1x1x1/0/0/0/0/0/0/0/0/0/0/0/0/0/0/0/0/0"
    zero_stat = (0, mkStat dir_mode 2 0) /\
  parse_root "1x1x1x1x1x1x1x1x1x1x1x1x1x1x1x1"
    = Some (mkRoot 1024 15 (repeat 1 15 ++ [0])) /\
  testfs_getattr
    "/1x1x1x1x1x1x1x1x1x1x1x1x1x1x1x1/0/0/0/0/0/0/0/0/0/0/0/0/0/0/0/0/0"
    zero_stat = (0, mkStat reg_mode 1 1024).
Proof. repeat split; vm_compute; reflexivity. Qed.

(** ** C7: directory listing *)

(** C7.  For every path (that fits the path buffer) classified as a
    directory, [testfs_readdir] hands to [filler] the names [.] and [..]
    and then the decimal strings of [0 .. w-1], [w + 2] entries in all,
    where [w] is the width of the layer the token count selects, the cell
    [ntok - 1] of the descriptor's [width]. *)
Theorem readdir_entries :
  forall (path t0 : string) (rest : list string) (root : root_struct),
    (String.length path < 256)%nat ->
    parse_path path = t0 :: rest ->
    parse_root t0 = Some root ->
    ntok_of (t0 :: rest) <= depth root ->
    let w := nth (Z.to_nat (ntok_of (t0 :: rest) - 1)) (width root) 0 in
    1 <= w <= MAXWIDTH /\
    testfs_readdir path = (0, "." :: ".." :: map sprintf_d (upto w)) /\
    Z.of_nat (List.length (snd (testfs_readdir path))) = w + 2.
Proof.
  intros path t0 rest root Hfit Htok Hroot Hdir w.
  assert (Hcell : width_at root (ntok_of (t0 :: rest) - 1) = w).
  { unfold width_at, w.
    destruct (ntok_of (t0 :: rest) - 1 =? -1) eqn:E; [|reflexivity].
    apply Z.eqb_eq in E. rewrite ntok_of_cons in E. lia. }
  assert (Hw : 1 <= w <= MAXWIDTH).
  { rewrite <- Hcell. apply width_at_layer; [eapply parse_root_ok; eauto|].
    rewrite ntok_of_cons in *. lia. }
  assert (Hlist : testfs_readdir path
                  = (0, "." :: ".." :: map sprintf_d (upto w))).
  { rewrite (readdir_on_tokens _ _ _ Htok), Hroot.
    destruct (ntok_of (t0 :: rest) >? depth root) eqn:E;
      [rewrite Z.gtb_ltb in E; apply Z.ltb_lt in E; lia|].
    cbv zeta. rewrite Hcell. rewrite readdir_loop_upto by lia. reflexivity. }
  split; [exact Hw|]. split; [exact Hlist|].
  rewrite Hlist. cbn [snd List.length]. unfold upto.
  rewrite !length_map, length_seq. lia.
Qed.

Lemma readdir_entries_witness :
  (String.length "/1kx5x4/2" < 256)%nat /\
  parse_path "/1kx5x4/2" = ["1kx5x4"; "2"] /\
  parse_root "1kx5x4" = Some (mkRoot 1024 2 (5 :: 4 :: repeat 0 14)) /\
  ntok_of ["1kx5x4"; "2"] <= 2 /\
  testfs_readdir "/1kx5x4/2" = (0, ["."; ".."; "0"; "1"; "2"; "3"]).
Proof.
  assert (Htok : parse_path "/1kx5x4/2" = ["1kx5x4"; "2"])
    by (vm_compute; reflexivity).
  assert (Hroot : parse_root "1kx5x4"
                  = Some (mkRoot 1024 2 (5 :: 4 :: repeat 0 14)))
    by (vm_compute; reflexivity).
  assert (Hdir : ntok_of ["1kx5x4"; "2"] <= 2) by (vm_compute; discriminate).
  assert (Hfit : (String.length "/1kx5x4/2" < 256)%nat) by (vm_compute; lia).
  split; [exact Hfit|].
  split; [exact Htok|]. split; [exact Hroot|]. split; [exact Hdir|].
  exact (proj1 (proj2 (readdir_entries _ _ _ _ Hfit Htok Hroot Hdir))).
Defined.

(** ** C8: reading the whole file and its parts *)

(** C8.  For every file of the tree whose path fits the path buffer
    (opened read-only), the read of
    [[0, file_size)] returns [file_size] bytes, the last of them a newline,
    and the read of any range [[offset, offset + size)] inside the file
    returns the matching slice of the whole.  A file of size zero has no
    last byte. *)
Theorem read_round_trip :
  forall (path : string) (root : root_struct),
    (String.length path < 256)%nat ->
    valid_file_path path root ->
    0 <= fsize root ->
    let full := testfs_read path O_RDONLY (fsize root) 0 in
    fst full = fsize root /\
    Z.of_nat (List.length (snd full)) = fsize root /\
    (0 < fsize root -> last (snd full) 0 = 10) /\
    forall offset size,
      0 <= offset -> 0 <= size -> offset + size <= fsize root ->
      testfs_read path O_RDONLY size offset
      = (size, firstn (Z.to_nat size) (skipn (Z.to_nat offset) (snd full))).
Proof.
  intros path root Hfit Hv Hpos full.
  assert (Hfs : INT_MIN <= fsize root <= INT_MAX).
  { destruct Hv as (_ & Hroot & _). eapply parse_root_fsize_range; eauto. }
  assert (Hread : forall size offset,
             testfs_read path O_RDONLY size offset
             = read_content root path size offset).
  { intros size offset. unfold testfs_read.
    rewrite (file_checks_valid _ _ O_RDONLY Hv). reflexivity. }
  assert (Hfull : full = (fsize root,
                          file_bytes root (seed_from_path path) 0
                            (Z.to_nat (fsize root)))).
  { unfold full. rewrite Hread. apply read_content_inside; lia. }
  rewrite Hfull. cbn [fst snd].
  split; [reflexivity|]. split; [rewrite file_bytes_length; lia|]. split.
  - intros Hlt.
    replace (Z.to_nat (fsize root)) with (S (Z.to_nat (fsize root - 1))) by lia.
    rewrite file_bytes_last. unfold content_byte.
    rewrite to_int_small by (unfold INT_MIN, INT_MAX in *; lia).
    replace (0 + Z.of_nat (Z.to_nat (fsize root - 1))) with (fsize root - 1)
      by lia.
    rewrite Z.eqb_refl, orb_true_r. reflexivity.
  - intros offset size Ho Hs Hin.
    rewrite Hread, read_content_inside by lia.
    rewrite file_bytes_slice by lia.
    rewrite Z2Nat.id by lia. reflexivity.
Qed.

Lemma read_round_trip_witness :
  (String.length "/64x5x4/2/3" < 256)%nat /\
  valid_file_path "/64x5x4/2/3" (mkRoot 65536 2 (5 :: 4 :: repeat 0 14)) /\
  0 <= 65536 /\
  fst (testfs_read "/64x5x4/2/3" O_RDONLY 65536 0) = 65536 /\
  testfs_read "/64x5x4/2/3" O_RDONLY 4 30
  = (4, firstn 4 (skipn 30 (snd (testfs_read "/64x5x4/2/3" O_RDONLY 65536 0)))).
Proof.
  assert (Hv : valid_file_path "/64x5x4/2/3"
                 (mkRoot 65536 2 (5 :: 4 :: repeat 0 14))).
  { valid_file_by_eval 3. }
  assert (Hpos : 0 <= fsize (mkRoot 65536 2 (5 :: 4 :: repeat 0 14)))
    by (vm_compute; discriminate).
  assert (Hfit : (String.length "/64x5x4/2/3" < 256)%nat)
    by (vm_compute; lia).
  split; [exact Hfit|]. split; [exact Hv|]. split; [exact Hpos|].
  destruct (read_round_trip _ _ Hfit Hv Hpos) as (Hlen & _ & _ & Hsub).
  split; [exact Hlen|].
  apply (Hsub 30 4); vm_compute; discriminate.
Defined.

(** ** C9: the selectors between the root and the leaf *)

(** C9.  The handlers look at the root token, at the number of tokens and,
    for open and read, at the last token; the selectors in between are not
    looked at.  Two paths with the same root token and the same number of
    tokens get the same answer from attribute lookup and directory
    listing, and with the same last token also from open and read (the
    same count; the bytes depend on the whole path through the seed).  So
    with a valid descriptor a path is reported as a directory or a file by
    its token count alone, and opens and reads when its last token is in
    range, whatever its other selectors are: a read inside the file then
    returns the bytes of the file.  The paths are those that fit the path
    buffer. *)
Theorem selectors_not_validated :
  forall (p1 t0 : string) (rest1 : list string),
    (String.length p1 < 256)%nat ->
    parse_path p1 = t0 :: rest1 ->
    (forall (p2 : string) (rest2 : list string),
        (String.length p2 < 256)%nat ->
        parse_path p2 = t0 :: rest2 ->
        List.length rest2 = List.length rest1 ->
        (forall stbuf, testfs_getattr p1 stbuf = testfs_getattr p2 stbuf) /\
        testfs_readdir p1 = testfs_readdir p2 /\
        (last rest1 t0 = last rest2 t0 ->
         forall flags,
           testfs_open p1 flags = testfs_open p2 flags /\
           forall size offset,
             fst (testfs_read p1 flags size offset)
             = fst (testfs_read p2 flags size offset))) /\
    (forall root : root_struct,
        parse_root t0 = Some root ->
        (Z.of_nat (List.length rest1) < depth root ->
         forall stbuf, testfs_getattr p1 stbuf = (0, mkStat dir_mode 2 0)) /\
        (Z.of_nat (List.length rest1) = depth root ->
         (forall stbuf,
             testfs_getattr p1 stbuf = (0, mkStat reg_mode 1 (fsize root))) /\
         forall val,
           sscanf_d "" (last rest1 t0) = Assigned val ->
           0 <= val < width_at root (depth root - 1) ->
           testfs_open p1 O_RDONLY = 0 /\
           forall size offset,
             testfs_read p1 O_RDONLY size offset
             = read_content root p1 size offset /\
             (0 <= offset -> 0 <= size -> offset + size <= fsize root ->
              testfs_read p1 O_RDONLY size offset
              = (size, file_bytes root (seed_from_path p1) offset
                         (Z.to_nat size))))).
Proof.
  intros p1 t0 rest1 Hfit1 H1. split.
  - intros p2 rest2 Hfit2 H2 Hlen.
    assert (Hn : ntok_of (t0 :: rest2) = ntok_of (t0 :: rest1))
      by (rewrite !ntok_of_cons, Hlen; reflexivity).
    split; [|split].
    + intros stbuf.
      rewrite (getattr_on_tokens _ _ _ H1), (getattr_on_tokens _ _ _ H2), Hn.
      reflexivity.
    + rewrite (readdir_on_tokens _ _ _ H1), (readdir_on_tokens _ _ _ H2), Hn.
      reflexivity.
    + intros Hlast flags.
      assert (Hc : file_checks p1 flags = file_checks p2 flags).
      { rewrite (file_checks_on_tokens _ _ _ H1),
          (file_checks_on_tokens _ _ _ H2), Hn, Hlast. reflexivity. }
      unfold testfs_open, testfs_read. rewrite Hc.
      split; [reflexivity|]. intros size offset.
      destruct (file_checks p2 flags) as [err|root]; [reflexivity|].
      unfold read_content.
      destruct (_ <? size);
        match goal with |- context [?s <=? 0] => destruct (s <=? 0) end;
        reflexivity.
  - intros root Hroot.
    split.
    + intros Hk stbuf.
      apply (proj1 (getattr_classifies _ _ _ H1 root stbuf Hroot)). exact Hk.
    + intros Hk. split.
      * intros stbuf.
        apply (proj1 (proj2 (getattr_classifies _ _ _ H1 root stbuf Hroot))).
        exact Hk.
      * intros val Hval Hrange.
        assert (Hv : valid_file_path p1 root).
        { unfold valid_file_path. cbv zeta. rewrite H1, tok_at_0, tok_at_last.
          rewrite ntok_of_cons. repeat split; try lia; try assumption.
          exists val. repeat split; try assumption; lia. }
        unfold testfs_open, testfs_read.
        rewrite (file_checks_valid _ _ O_RDONLY Hv).
        split; [reflexivity|]. intros size offset.
        split; [reflexivity|]. intros Ho Hs Hin.
        pose proof (parse_root_fsize_range _ _ Hroot) as Hfs.
        apply read_content_inside; lia.
Qed.

Lemma selectors_not_validated_witness :
  (String.length "/1kx5x4/zz/3" < 256)%nat /\
  (String.length "/1kx5x4/2/3" < 256)%nat /\
  parse_path "/1kx5x4/zz/3" = ["1kx5x4"; "zz"; "3"] /\
  parse_path "/1kx5x4/2/3" = ["1kx5x4"; "2"; "3"] /\
  testfs_getattr "/1kx5x4/zz/3" zero_stat
  = testfs_getattr "/1kx5x4/2/3" zero_stat /\
  testfs_open "/1kx5x4/zz/3" O_RDONLY = testfs_open "/1kx5x4/2/3" O_RDONLY /\
  parse_root "1kx5x4" = Some (mkRoot 1024 2 (5 :: 4 :: repeat 0 14)) /\
  testfs_getattr "/1kx5x4/zz/3" zero_stat = (0, mkStat reg_mode 1 1024) /\
  testfs_open "/1kx5x4/zz/3" O_RDONLY = 0 /\
  testfs_getattr "/1kx5x4/99" zero_stat = (0, mkStat dir_mode 2 0).
Proof.
  assert (H1 : parse_path "/1kx5x4/zz/3" = ["1kx5x4"; "zz"; "3"])
    by (vm_compute; reflexivity).
  assert (H2 : parse_path "/1kx5x4/2/3" = ["1kx5x4"; "2"; "3"])
    by (vm_compute; reflexivity).
  assert (H3 : parse_path "/1kx5x4/99" = ["1kx5x4"; "99"])
    by (vm_compute; reflexivity).
  assert (Hroot : parse_root "1kx5x4"
                  = Some (mkRoot 1024 2 (5 :: 4 :: repeat 0 14)))
    by (vm_compute; reflexivity).
  assert (Hfit1 : (String.length "/1kx5x4/zz/3" < 256)%nat)
    by (vm_compute; lia).
  assert (Hfit2 : (String.length "/1kx5x4/2/3" < 256)%nat)
    by (vm_compute; lia).
  assert (Hfit3 : (String.length "/1kx5x4/99" < 256)%nat)
    by (vm_compute; lia).
  destruct (selectors_not_validated _ _ _ Hfit1 H1) as (Hsame & Hvalid).
  destruct (Hsame _ _ Hfit2 H2 eq_refl) as (Hg & _ & Ho).
  destruct (Hvalid _ Hroot) as (_ & Hfile).
  destruct (Hfile eq_refl) as (Hgf & Hleaf).
  destruct (Hleaf 3 eq_refl ltac:(vm_compute; split; [discriminate | reflexivity]))
    as (Hopen & _).
  destruct (selectors_not_validated _ _ _ Hfit3 H3) as (_ & Hvalid3).
  destruct (Hvalid3 _ Hroot) as (Hdir & _).
  split; [exact Hfit1|]. split; [exact Hfit2|].
  split; [exact H1|]. split; [exact H2|]. split; [apply Hg|].
  split; [apply (Ho eq_refl O_RDONLY)|]. split; [exact Hroot|].
  split; [apply Hgf|]. split; [exact Hopen|].
  apply Hdir. vm_compute. reflexivity.
Defined.

(** ** C10: trees of sixteen layers *)

(** C10.  [parse_path] returns at most 16 tokens, so under a descriptor of
    16 layers no path has the 17 tokens of a file: open and read report
    not-found for every path (that fits the path buffer), and attribute
    lookup reports a directory, never a regular file. *)
Theorem sixteen_layers_no_files :
  forall (path t0 : string) (rest : list string) (root : root_struct),
    (String.length path < 256)%nat ->
    parse_path path = t0 :: rest ->
    parse_root t0 = Some root ->
    depth root = Z.of_nat MAXTOK ->
    (forall p, (List.length (parse_path p) <= MAXTOK)%nat) /\
    ntok_of (parse_path path) <> depth root + 1 /\
    (forall flags, testfs_open path flags = - ENOENT) /\
    (forall flags size offset,
        testfs_read path flags size offset = (- ENOENT, [])) /\
    (forall stbuf,
        testfs_getattr path stbuf = (0, mkStat dir_mode 2 0) /\
        st_mode (snd (testfs_getattr path stbuf)) <> reg_mode).
Proof.
  intros path t0 rest root Hfit Htok Hroot Hdepth.
  pose proof (parse_path_length path) as Hlen. rewrite Htok in Hlen.
  assert (Hn : ntok_of (t0 :: rest) <= depth root).
  { unfold ntok_of. rewrite Hdepth. lia. }
  assert (Hc : forall flags, file_checks path flags = inl (- ENOENT)).
  { intros flags. rewrite (file_checks_on_tokens _ _ _ Htok), Hroot.
    destruct (ntok_of (t0 :: rest) =? depth root + 1) eqn:E;
      [apply Z.eqb_eq in E; lia | reflexivity]. }
  split; [exact parse_path_length|]. split; [rewrite Htok; lia|].
  split; [|split].
  - intros flags. unfold testfs_open. rewrite Hc. reflexivity.
  - intros flags size offset. unfold testfs_read. rewrite Hc. reflexivity.
  - intros stbuf.
    assert (Hg : testfs_getattr path stbuf = (0, mkStat dir_mode 2 0)).
    { rewrite (getattr_on_tokens _ _ _ Htok), Hroot.
      rewrite (proj2 (Z.leb_le _ _) Hn). reflexivity. }
    split; [exact Hg|]. rewrite Hg. vm_compute. discriminate.
Qed.

Lemma sixteen_layers_no_files_witness :
  (String.length
     "/1x1x1x1x1x1x1x1x1x1x1x1x1x1x1x1x1/0/0/0/0/0/0/0/0/0/0/0/0/0/0/0/0"
   < 256)%nat /\
  parse_path
    "/1x1x1x1x1x1x1x1x1x1x1x1x1x1x1x1x1/0/0/0/0/0/0/0/0/0/0/0/0/0/0/0/0"
  = "1x1x1x1x1x1x1x1x1x1x1x1x1x1x1x1x1" :: repeat "0" 15 /\
  parse_root "1x1x1x1x1x1x1x1x1x1x1x1x1x1x1x1x1"
  = Some (mkRoot 1024 16 (repeat 1 16)) /\
  testfs_open
    "/1x1x1x1x1x1x1x1x1x1x1x1x1x1x1x1x1/0/0/0/0/0/0/0/0/0/0/0/0/0/0/0/0"
    O_RDONLY = - ENOENT /\
  testfs_read
    "/1x1x1x1x1x1x1x1x1x1x1x1x1x1x1x1x1/0/0/0/0/0/0/0/0/0/0/0/0/0/0/0/0"
    O_RDONLY 16 0 = (- ENOENT, []) /\
  testfs_getattr
    "/1x1x1x1x1x1x1x1x1x1x1x1x1x1x1x1x1/0/0/0/0/0/0/0/0/0/0/0/0/0/0/0/0"
    zero_stat = (0, mkStat dir_mode 2 0).
Proof.
  assert (Htok : parse_path
    "/1x1x1x1x1x1x1x1x1x1x1x1x1x1x1x1x1/0/0/0/0/0/0/0/0/0/0/0/0/0/0/0/0"
    = "1x1x1x1x1x1x1x1x1x1x1x1x1x1x1x1x1" :: repeat "0" 15)
    by (vm_compute; reflexivity).
  assert (Hroot : parse_root "1x1x1x1x1x1x1x1x1x1x1x1x1x1x1x1x1"
                  = Some (mkRoot 1024 16 (repeat 1 16)))
    by (vm_compute; reflexivity).
  assert (Hfit : (String.length
    "/1x1x1x1x1x1x1x1x1x1x1x1x1x1x1x1x1/0/0/0/0/0/0/0/0/0/0/0/0/0/0/0/0"
    < 256)%nat) by (vm_compute; lia).
  destruct (sixteen_layers_no_files _ _ _ _ Hfit Htok Hroot eq_refl)
    as (_ & _ & Ho & Hr & Hg).
  split; [exact Hfit|]. split; [exact Htok|]. split; [exact Hroot|].
  split; [apply Ho|]. split; [apply Hr | apply Hg].
Defined.

(** * Further properties of the program *)

(** ** The tokenizer *)

Section Tokenizer.

Variable d : ascii.

Lemma skip_delim_length (s : string) :
  (String.length (skip_delim d s) <= String.length s)%nat.
Proof.
  induction s as [|c r IH]; simpl; [lia|].
  destruct (Ascii.eqb c d); simpl; lia.
Qed.

(** What [skip_delim] leaves starts with a character that is no
    delimiter. *)
Lemma skip_delim_head (s : string) (c : ascii) (r : string) :
  skip_delim d s = String c r -> c <> d.
Proof.
  induction s as [|c' r' IH]; simpl; [discriminate|].
  destruct (Ascii.eqb_spec c' d) as [->|Hne]; [exact IH|].
  intros H. inversion H; subst. exact Hne.
Qed.

Lemma take_token_no_delim (s t rest : string) :
  take_token d s = (t, rest) -> ~ In d (list_ascii_of_string t).
Proof.
  revert t rest. induction s as [|c r IH]; intros t rest; simpl.
  - intros H. inversion H; subst. simpl. tauto.
  - destruct (Ascii.eqb_spec c d) as [->|Hne].
    + intros H. inversion H; subst. simpl. tauto.
    + destruct (take_token d r) as [t' rest'] eqn:E.
      intros H. inversion H; subst. simpl. intros [Hc|Hin]; [congruence|].
      exact (IH _ _ eq_refl Hin).
Qed.

Lemma take_token_rest_length (s t rest : string) :
  take_token d s = (t, rest) -> (String.length rest <= String.length s)%nat.
Proof.
  revert t rest. induction s as [|c r IH]; intros t rest; simpl.
  - intros H. inversion H; subst. simpl. lia.
  - destruct (Ascii.eqb c d).
    + intros H. inversion H; subst. lia.
    + destruct (take_token d r) as [t' rest'] eqn:E.
      intros H. inversion H; subst. specialize (IH _ _ eq_refl). lia.
Qed.

(** A token [strtok] returns is not empty, holds no delimiter, and the
    buffer that remains is shorter than before. *)
Lemma strtok_token (s t rest : string) :
  strtok d s = Some (t, rest) ->
  t <> EmptyString /\
  ~ In d (list_ascii_of_string t) /\
  (String.length rest < String.length s)%nat.
Proof.
  unfold strtok. pose proof (skip_delim_length s) as Hlen.
  destruct (skip_delim d s) as [|c r] eqn:Hs; [discriminate|].
  pose proof (skip_delim_head _ _ _ Hs) as Hc.
  intros H. injection H as Ht.
  change (take_token d (String c r) = (t, rest)) in Ht.
  split; [|split].
  - simpl in Ht. destruct (Ascii.eqb_spec c d) as [|_]; [contradiction|].
    destruct (take_token d r) as [t' rest']. inversion Ht; subst.
    discriminate.
  - exact (take_token_no_delim _ _ _ Ht).
  - simpl in Ht. destruct (Ascii.eqb_spec c d) as [|_]; [contradiction|].
    destruct (take_token d r) as [t' rest'] eqn:E. inversion Ht; subst.
    apply take_token_rest_length in E. simpl in Hlen. lia.
Qed.

(** A buffer of delimiters only has no token. *)
Lemma strtok_only_delims (s : string) :
  Forall (fun c => c = d) (list_ascii_of_string s) -> strtok d s = None.
Proof.
  unfold strtok. induction s as [|c r IH]; simpl; [reflexivity|].
  intros H. inversion H; subst. rewrite Ascii.eqb_refl. auto.
Qed.

End Tokenizer.

Lemma parse_path_loop_tokens (fuel : nat) (p : option (string * string)) :
  (forall t rest, p = Some (t, rest) ->
     t <> EmptyString /\ ~ In "/"%char (list_ascii_of_string t)) ->
  Forall (fun t => t <> EmptyString /\ ~ In "/"%char (list_ascii_of_string t))
         (parse_path_loop fuel p).
Proof.
  revert p. induction fuel as [|fuel IH]; intros [[t rest]|] Hp; simpl;
    try constructor.
  - exact (Hp _ _ eq_refl).
  - apply IH. intros t' rest' H'. apply strtok_token in H'. tauto.
Qed.

(** X1.  [parse_path] returns at most [MAXTOK] tokens; none of them is
    empty and none holds a ['/'].  So the handlers never index [tok] past
    its 16 cells and [tok[0]], [tok[ntok-1]] are proper file names. *)
Theorem parse_path_tokens_wellformed :
  forall path : string,
    (List.length (parse_path path) <= MAXTOK)%nat /\
    Forall (fun t => t <> EmptyString /\
                     ~ In "/"%char (list_ascii_of_string t))
           (parse_path path).
Proof.
  intros path. split; [apply parse_path_length|].
  apply parse_path_loop_tokens. intros t rest H.
  apply strtok_token in H. tauto.
Qed.

(** X2.  A path without a segment (the empty string, the mount point [/],
    any run of slashes that fits the path buffer) names nothing: each of the four handlers returns
    [-ENOENT], whatever the flags, and hands out no entry and no byte. *)
Theorem no_segment_not_found :
  forall path : string,
    (String.length path < 256)%nat ->
    Forall (fun c => c = "/"%char) (list_ascii_of_string path) ->
    (forall stbuf, fst (testfs_getattr path stbuf) = - ENOENT) /\
    testfs_readdir path = (- ENOENT, []) /\
    (forall flags, testfs_open path flags = - ENOENT) /\
    (forall flags size offset,
        testfs_read path flags size offset = (- ENOENT, [])).
Proof.
  intros path Hfit Hp.
  assert (Htok : parse_path path = []).
  { unfold parse_path. rewrite strtok_only_delims by exact Hp. reflexivity. }
  split; [|split; [|split]].
  - intros stbuf. unfold testfs_getattr.
    destruct (String.eqb path "/"); [reflexivity|]. rewrite Htok. reflexivity.
  - unfold testfs_readdir.
    destruct (String.eqb path "/"); [reflexivity|]. rewrite Htok. reflexivity.
  - intros flags. unfold testfs_open, file_checks. rewrite Htok. reflexivity.
  - intros flags size offset. unfold testfs_read, file_checks.
    rewrite Htok. reflexivity.
Qed.

Lemma no_segment_not_found_witness :
  (String.length "//" < 256)%nat /\
  Forall (fun c => c = "/"%char) (list_ascii_of_string "//") /\
  fst (testfs_getattr "//" zero_stat) = - ENOENT /\
  testfs_readdir "//" = (- ENOENT, []) /\
  testfs_open "//" O_RDONLY = - ENOENT.
Proof.
  assert (H : Forall (fun c => c = "/"%char) (list_ascii_of_string "//"))
    by (repeat constructor).
  assert (Hfit : (String.length "//" < 256)%nat) by (vm_compute; lia).
  destruct (no_segment_not_found "//" Hfit H) as (Hg & Hd & Ho & _).
  split; [exact Hfit|]. split; [exact H|]. split; [apply Hg|]. split; [exact Hd | apply Ho].
Defined.

(** ** The root descriptor *)

Section Descriptor.

Local Open Scope list_scope.

Lemma set_nth_app (pre tl : list Z) (old v : Z) :
  set_nth (List.length pre) v (pre ++ old :: tl) = pre ++ v :: tl.
Proof.
  induction pre as [|h pre IH]; simpl; [reflexivity|]. rewrite IH. reflexivity.
Qed.

(** The loop over the width tokens, as a function of the tokens: it fails
    when one of them does not pass the test, and otherwise stores their
    values from cell [depth] on. *)
Lemma parse_widths_tokens (fuel : nat) :
  forall p fs (pre : list Z) (k : nat),
    (fuel <= k)%nat ->
    parse_widths fuel p
      (mkRoot fs (Z.of_nat (List.length pre)) (pre ++ repeat 0 k))
    = let ws := strtok_all fuel "x" p in
      if forallb valid_width ws then
        Some (mkRoot fs (Z.of_nat (List.length pre + List.length ws))
                (pre ++ map atoi ws ++ repeat 0 (k - List.length ws)))
      else None.
Proof.
  induction fuel as [|fuel IH]; intros p fs pre k Hk.
  - destruct p as [[tok rest]|]; simpl;
      rewrite Nat.add_0_r, Nat.sub_0_r; reflexivity.
  - destruct p as [[tok rest]|]; cbn [parse_widths strtok_all];
      [|simpl; rewrite Nat.add_0_r, Nat.sub_0_r; reflexivity].
    cbv zeta. cbn [forallb]. unfold valid_width at 1.
    destruct ((atoi tok <=? 0) || (atoi tok >? MAXWIDTH)); cbn [negb andb];
      [reflexivity|].
    cbn [fsize depth width]. rewrite Nat2Z.id.
    destruct k as [|k]; [lia|]. cbn [repeat]. rewrite set_nth_app.
    replace (Z.of_nat (List.length pre) + 1)
      with (Z.of_nat (List.length (pre ++ [atoi tok])))
      by (rewrite length_app; simpl; lia).
    replace (pre ++ atoi tok :: repeat 0 k)
      with ((pre ++ [atoi tok]) ++ repeat 0 k)
      by (rewrite <- app_assoc; reflexivity).
    rewrite IH by lia. cbv zeta.
    destruct (forallb valid_width (strtok_all fuel "x" (strtok "x" rest)));
      [|reflexivity].
    rewrite length_app. cbn [List.length map].
    rewrite <- app_assoc. cbn [app].
    replace (List.length pre + 1 + List.length
               (strtok_all fuel "x" (strtok "x" rest)))%nat
      with (List.length pre + S (List.length
               (strtok_all fuel "x" (strtok "x" rest))))%nat by lia.
    reflexivity.
Qed.

Lemma strtok_all_length (fuel : nat) (d : ascii) (p : option (string * string)) :
  (List.length (strtok_all fuel d p) <= fuel)%nat.
Proof.
  revert p. induction fuel as [|fuel IH]; intros [[tok rest]|]; simpl; try lia.
  specialize (IH (strtok d rest)). lia.
Qed.

(** X3.  [parse_root] as a function of the tokens of the segment.  It
    fails when the segment has no token, when the first token does not
    start with a numeral, or when one of the first 16 tokens after it has
    an [atoi] value outside [1 .. MAXWIDTH].  Otherwise [depth] is the
    number of those tokens (at most 16), [width] holds their values
    followed by zeros, and [fsize] is the numeral times 1024.  Tokens after
    the 16th width are not looked at. *)
Theorem parse_root_by_tokens :
  forall str : string,
    parse_root str =
      match strtok "x" str with
      | None => None
      | Some (p, rest) =>
          match sscanf_d "" p with
          | Assigned val =>
              let ws := strtok_all MAXTOK "x" (strtok "x" rest) in
              if forallb valid_width ws then
                Some (mkRoot (to_int (val * 1024))
                        (Z.of_nat (List.length ws))
                        (map atoi ws ++ repeat 0 (MAXTOK - List.length ws)))
              else None
          | _ => None
          end
      end.
Proof.
  intros str. unfold parse_root.
  destruct (strtok "x" str) as [[p rest]|]; [|reflexivity].
  rewrite parse_fsize_first_branch.
  change (sscanf_d "k" p) with (sscanf_d "" p).
  destruct (sscanf_d "" p) as [val| |]; try reflexivity.
  exact (parse_widths_tokens MAXTOK (strtok "x" rest) (to_int (val * 1024))
           [] MAXTOK (Nat.le_refl _)).
Qed.

(** X4.  What every descriptor that parses satisfies: between 0 and 16
    layers; 16 width cells, the first [depth] of them between 1 and
    [MAXWIDTH] and the others zero; a file size that fits an [int] and is
    a multiple of 1024. *)
Theorem parse_root_invariant :
  forall (str : string) (root : root_struct),
    parse_root str = Some root ->
    0 <= depth root <= Z.of_nat MAXTOK /\
    List.length (width root) = MAXTOK /\
    (forall i, 0 <= i < depth root ->
       1 <= nth (Z.to_nat i) (width root) 0 <= MAXWIDTH) /\
    (forall i, depth root <= i ->
       nth (Z.to_nat i) (width root) 0 = 0) /\
    INT_MIN <= fsize root <= INT_MAX /\
    fsize root mod 1024 = 0.
Proof.
  intros str root H.
  pose proof (parse_root_ok _ _ H) as [Hd Hlen Hw].
  pose proof (parse_root_fsize_range _ _ H) as Hfs.
  destruct (parse_root_fsize_times_1024 _ _ H) as (p & rest & val & _ & _ & Hsz).
  unfold parse_root in H.
  destruct (strtok "x" str) as [[p' rest']|]; [|discriminate].
  destruct (parse_fsize p') as [fs|]; [|discriminate].
  pose proof (parse_widths_tokens MAXTOK (strtok "x" rest') fs []
                MAXTOK (Nat.le_refl _)) as E.
  cbn [List.length app Z.of_nat Nat.add] in E. rewrite E in H. clear E.
  cbv zeta in H.
  set (ws := strtok_all MAXTOK "x" (strtok "x" rest')) in *.
  destruct (forallb valid_width ws); [|discriminate].
  injection H as Hroot.
  repeat split; try assumption; try lia.
  - apply Hw; lia.
  - apply Hw; lia.
  - intros i Hi. rewrite <- Hroot in *. cbn [depth width] in *.
    rewrite app_nth2 by (rewrite length_map; lia).
    apply nth_repeat.
  - rewrite Hsz. unfold to_int, wrap_signed.
    change (2 ^ (32 - 1)) with (2097152 * 1024).
    change (2 ^ 32) with (4194304 * 1024).
    rewrite <- Z.mul_add_distr_r.
    rewrite Z.mul_mod_distr_r by lia.
    rewrite <- Z.mul_sub_distr_r. apply Z.mod_mul. lia.
Qed.

Lemma parse_root_invariant_witness :
  parse_root "1kx5x4" = Some (mkRoot 1024 2 (5 :: 4 :: repeat 0 14)) /\
  0 <= 2 <= Z.of_nat MAXTOK /\ 1024 mod 1024 = 0.
Proof.
  assert (H : parse_root "1kx5x4"
              = Some (mkRoot 1024 2 (5 :: 4 :: repeat 0 14)))
    by (vm_compute; reflexivity).
  destruct (parse_root_invariant _ _ H) as (Hd & _ & _ & _ & _ & Hm).
  split; [exact H|]. split; [exact Hd | exact Hm].
Defined.

End Descriptor.

(** ** Names of directory entries *)

Section EntryNames.

Import Decimal.

Lemma read_digits_of_uint_acc (u : uint) :
  forall p : positive,
    read_digits (NilEmpty.string_of_uint u) (Z.pos p)
    = Z.pos (Pos.of_uint_acc u p).
Proof.
  induction u as [|u IH|u IH|u IH|u IH|u IH|u IH|u IH|u IH|u IH|u IH];
    intros p; [reflexivity|..];
    cbn [NilEmpty.string_of_uint Pos.of_uint_acc];
    match goal with
    | |- read_digits (String ?c ?s) ?acc = _ =>
        change (read_digits (String c s) acc)
          with (read_digits s (10 * acc + digit_val c))
    end;
    rewrite <- IH; f_equal;
    match goal with
    | |- context [digit_val ?c] =>
        let v := eval vm_compute in (digit_val c) in
        change (digit_val c) with v
    end; lia.
Qed.

Lemma read_digits_of_uint (u : uint) :
  read_digits (NilEmpty.string_of_uint u) 0 = Z.of_N (Pos.of_uint u).
Proof.
  induction u as [|u IH|u IH|u IH|u IH|u IH|u IH|u IH|u IH|u IH|u IH];
    [reflexivity | exact IH |..];
    cbn [NilEmpty.string_of_uint Pos.of_uint];
    match goal with
    | |- read_digits (String ?c ?s) 0 = _ =>
        change (read_digits (String c s) 0)
          with (read_digits s (10 * 0 + digit_val c))
    end;
    cbn [Z.of_N]; rewrite <- read_digits_of_uint_acc; f_equal.
Qed.

Lemma unsigned_numeral_of_pos (p : positive) :
  NilZero.string_of_uint (Pos.to_uint p)
  = NilEmpty.string_of_uint (Pos.to_uint p) /\
  unsigned_numeral (NilEmpty.string_of_uint (Pos.to_uint p)) = Some (Z.pos p) /\
  skip_space (NilEmpty.string_of_uint (Pos.to_uint p))
  = NilEmpty.string_of_uint (Pos.to_uint p) /\
  exists c s, NilEmpty.string_of_uint (Pos.to_uint p) = String c s /\
              isdigit c = true.
Proof.
  pose proof (DecimalPos.Unsigned.to_uint_nonnil p) as Hnil.
  pose proof (read_digits_of_uint (Pos.to_uint p)) as Hval.
  rewrite DecimalPos.Unsigned.of_to in Hval. cbn [Z.of_N] in Hval.
  unfold unsigned_numeral. rewrite Hval.
  destruct (Pos.to_uint p) as [|u|u|u|u|u|u|u|u|u|u]; [contradiction|..];
    (split; [reflexivity|]); (split; [reflexivity|]);
    (split; [reflexivity|]); eexists; eexists; split; reflexivity.
Qed.

Lemma numeral_of_sprintf (i : Z) : numeral (sprintf_d i) = Some i.
Proof.
  destruct i as [|p|p].
  - reflexivity.
  - unfold sprintf_d. cbn [Z.to_int NilZero.string_of_int].
    destruct (unsigned_numeral_of_pos p) as (-> & Hn & Hs & c & s & Hc & Hd).
    unfold numeral. rewrite Hs. rewrite Hc in *.
    destruct (Ascii.eqb_spec c "-") as [->|Hm]; [discriminate Hd|].
    destruct (Ascii.eqb_spec c "+") as [->|Hp]; [discriminate Hd|].
    rewrite <- Hn.
    destruct c as [[] [] [] [] [] [] [] []]; try reflexivity;
      congruence.
  - unfold sprintf_d. cbn [Z.to_int NilZero.string_of_int].
    destruct (unsigned_numeral_of_pos p) as (-> & Hn & _).
    unfold numeral.
    change (skip_space (String "-" (NilEmpty.string_of_uint (Pos.to_uint p))))
      with (String "-" (NilEmpty.string_of_uint (Pos.to_uint p))).
    cbv iota beta. rewrite Hn. reflexivity.
Qed.

Lemma sprintf_sscanf_roundtrip_int (i : Z) :
  INT_MIN <= i <= INT_MAX -> sscanf_d "" (sprintf_d i) = Assigned i.
Proof.
  intros Hi. unfold sscanf_d. rewrite numeral_of_sprintf. f_equal.
  unfold strtol_clamp, LONG_MIN, LONG_MAX, INT_MIN, INT_MAX in *.
  rewrite Z.min_r, Z.max_r by lia.
  apply to_int_small. unfold INT_MIN, INT_MAX. lia.
Qed.

(** X5.  The name [sprintf] prints for the number [i] is read back as [i]
    by [sscanf] with any of the program's formats and by [atoi]: the
    entries [testfs_readdir] lists are the leaf names [testfs_open] and
    [testfs_read] accept. *)
Theorem sprintf_sscanf_round_trip :
  forall (i : Z) (lit : string),
    INT_MIN <= i <= INT_MAX ->
    sscanf_d lit (sprintf_d i) = Assigned i /\ atoi (sprintf_d i) = i.
Proof.
  intros i lit Hi. unfold sscanf_d, atoi. rewrite numeral_of_sprintf.
  assert (Hc : to_int (strtol_clamp i) = i).
  { unfold strtol_clamp, LONG_MIN, LONG_MAX, INT_MIN, INT_MAX in *.
    rewrite Z.min_r, Z.max_r by lia.
    apply to_int_small. unfold INT_MIN, INT_MAX. lia. }
  rewrite Hc. split; reflexivity.
Qed.

Lemma sprintf_sscanf_round_trip_witness :
  INT_MIN <= 999999 <= INT_MAX /\
  sscanf_d "" (sprintf_d 999999) = Assigned 999999 /\
  atoi (sprintf_d 999999) = 999999.
Proof.
  assert (H : INT_MIN <= 999999 <= INT_MAX)
    by (vm_compute; split; discriminate).
  split; [exact H|]. exact (sprintf_sscanf_round_trip 999999 "" H).
Defined.

End EntryNames.

(** ** A path and its children *)

Section Children.

Variable d : ascii.

Lemma skip_delim_app_all (s x : string) :
  skip_delim d s = EmptyString ->
  skip_delim d (s ++ x) = skip_delim d x.
Proof.
  induction s as [|c r IH]; simpl; [reflexivity|].
  destruct (Ascii.eqb c d); [exact IH | discriminate].
Qed.

Lemma skip_delim_app_some (s x : string) (c : ascii) (r : string) :
  skip_delim d s = String c r ->
  skip_delim d (s ++ x) = String c (r ++ x).
Proof.
  induction s as [|c' r' IH]; simpl; [discriminate|].
  destruct (Ascii.eqb c' d); [exact IH|].
  intros H. inversion H; subst. reflexivity.
Qed.

(** The scan of a name without delimiter: the name itself, then nothing. *)
Lemma take_token_name (name : string) :
  ~ In d (list_ascii_of_string name) ->
  take_token d name = (name, EmptyString).
Proof.
  induction name as [|c r IH]; simpl; [reflexivity|]. intros H.
  destruct (Ascii.eqb_spec c d) as [->|_]; [tauto|].
  rewrite IH by tauto. reflexivity.
Qed.

Lemma strtok_name (name : string) :
  name <> EmptyString -> ~ In d (list_ascii_of_string name) ->
  strtok d name = Some (name, EmptyString).
Proof.
  intros Hne Hd. unfold strtok. destruct name as [|c r]; [contradiction|].
  simpl in Hd. cbn [skip_delim].
  destruct (Ascii.eqb_spec c d) as [->|_]; [tauto|].
  rewrite take_token_name by (simpl; tauto). reflexivity.
Qed.

(** The first token of a buffer is not changed by what is appended after a
    delimiter, and the scan goes on in the rest as before. *)
Lemma take_token_app (s y t rest : string) :
  take_token d s = (t, rest) ->
  exists rest',
    take_token d (s ++ String d y) = (t, rest') /\
    strtok d rest' = strtok d (rest ++ String d y).
Proof.
  revert t rest. induction s as [|c r IH]; intros t rest; simpl.
  - intros H. inversion H; subst. rewrite Ascii.eqb_refl.
    exists y. split; [reflexivity|].
    unfold strtok. simpl. rewrite Ascii.eqb_refl. reflexivity.
  - destruct (Ascii.eqb c d).
    + intros H. inversion H; subst. eexists. split; reflexivity.
    + destruct (take_token d r) as [t' rest0] eqn:E.
      intros H. inversion H; subst.
      destruct (IH _ _ eq_refl) as (rest' & -> & Hr).
      exists rest'. split; [reflexivity | exact Hr].
Qed.

End Children.

Lemma parse_path_loop_child (name : string) :
  name <> EmptyString -> ~ In "/"%char (list_ascii_of_string name) ->
  forall (fuel : nat) (s : string),
    (List.length (parse_path_loop fuel (strtok "/" s)) < fuel)%nat ->
    parse_path_loop fuel (strtok "/" (s ++ String "/" name))
    = (parse_path_loop fuel (strtok "/" s) ++ [name])%list.
Proof.
  intros Hne Hd.
  induction fuel as [|fuel IH]; intros s Hlen; [simpl in Hlen; lia|].
  unfold strtok at 1 2.
  destruct (skip_delim "/" s) as [|c r] eqn:Hs.
  - rewrite skip_delim_app_all by exact Hs.
    change (skip_delim "/" (String "/" name)) with (skip_delim "/" name).
    fold (strtok "/" name). rewrite strtok_name by assumption.
    cbn [parse_path_loop app].
    change (strtok "/" "") with (@None (string * string)).
    destruct fuel; reflexivity.
  - rewrite (skip_delim_app_some _ _ _ _ _ Hs).
    change (String c (r ++ String "/" name))
      with (String c r ++ String "/" name).
    destruct (take_token "/" (String c r)) as [t rest] eqn:Ht.
    destruct (take_token_app "/" _ name _ _ Ht) as (rest' & -> & Hr).
    cbn [parse_path_loop app]. rewrite Hr. f_equal.
    apply IH.
    unfold strtok in Hlen at 1. rewrite Hs, Ht in Hlen.
    cbn [parse_path_loop List.length] in Hlen. lia.
Qed.

(** X6.  Appending a segment to a path appends a token: when the path has
    fewer than 16 tokens and [name] is a file name (not empty, without
    ['/']), the tokens of [path/name] are those of [path] followed by
    [name]. *)
Theorem parse_path_child :
  forall path name : string,
    name <> EmptyString ->
    ~ In "/"%char (list_ascii_of_string name) ->
    (List.length (parse_path path) < MAXTOK)%nat ->
    parse_path (path ++ String "/" name)
    = (parse_path path ++ [name])%list.
Proof.
  intros path name Hne Hd Hlen. unfold parse_path.
  apply parse_path_loop_child; assumption.
Qed.

Lemma parse_path_child_witness :
  "3" <> EmptyString /\
  ~ In "/"%char (list_ascii_of_string "3") /\
  (List.length (parse_path "/1kx5x4/2") < MAXTOK)%nat /\
  parse_path "/1kx5x4/2/3" = ["1kx5x4"; "2"; "3"].
Proof.
  assert (H1 : "3" <> EmptyString) by discriminate.
  assert (H2 : ~ In "/"%char (list_ascii_of_string "3"))
    by (simpl; intros [H|[]]; discriminate H).
  assert (H3 : (List.length (parse_path "/1kx5x4/2") < MAXTOK)%nat)
    by (vm_compute; lia).
  split; [exact H1|]. split; [exact H2|]. split; [exact H3|].
  exact (parse_path_child "/1kx5x4/2" "3" H1 H2 H3).
Defined.

Section ListedEntries.

Import Decimal.

Lemma string_of_uint_digits (u : uint) :
  Forall (fun c => isdigit c = true)
         (list_ascii_of_string (NilEmpty.string_of_uint u)).
Proof.
  induction u; simpl; constructor; try reflexivity; assumption.
Qed.

(** The name printed for a number that is not negative is a non-empty
    string of digits. *)
Lemma sprintf_d_is_name (i : Z) :
  0 <= i ->
  sprintf_d i <> EmptyString /\
  ~ In "/"%char (list_ascii_of_string (sprintf_d i)).
Proof.
  intros Hi. split.
  - intros He. pose proof (numeral_of_sprintf i) as Hn.
    rewrite He in Hn. discriminate Hn.
  - assert (Hdig : Forall (fun c => isdigit c = true)
                          (list_ascii_of_string (sprintf_d i))).
    { destruct i as [|p|p]; [repeat constructor | | lia].
      unfold sprintf_d. cbn [Z.to_int NilZero.string_of_int].
      destruct (unsigned_numeral_of_pos p) as (-> & _).
      apply string_of_uint_digits. }
    intros Hin. rewrite Forall_forall in Hdig.
    specialize (Hdig _ Hin). discriminate Hdig.
Qed.

(** X7.  What [testfs_readdir] lists is there.  For a directory [dir] of
    fewer than 16 segments and every name it lists besides [.] and [..],
    as long as [dir/name] fits the path buffer:
    [dir/name] is a directory that can be listed when [dir] is above the
    last layer, and a regular file of the descriptor's size that opens
    read-only when [dir] is at the last layer. *)
Theorem listed_entries_resolve :
  forall (dir t0 : string) (rest : list string) (root : root_struct)
         (name : string),
    parse_path dir = t0 :: rest ->
    parse_root t0 = Some root ->
    ntok_of (t0 :: rest) <= depth root ->
    (List.length (t0 :: rest) < MAXTOK)%nat ->
    In name (snd (testfs_readdir dir)) ->
    name <> "." -> name <> ".." ->
    (String.length (dir ++ String "/" name) < 256)%nat ->
    let child := dir ++ String "/" name in
    (ntok_of (t0 :: rest) < depth root ->
       (forall stbuf, testfs_getattr child stbuf = (0, mkStat dir_mode 2 0)) /\
       fst (testfs_readdir child) = 0) /\
    (ntok_of (t0 :: rest) = depth root ->
       (forall stbuf,
           testfs_getattr child stbuf = (0, mkStat reg_mode 1 (fsize root))) /\
       valid_file_path child root /\
       testfs_open child O_RDONLY = 0).
Proof.
  intros dir t0 rest root name Htok Hroot Hdir Hcap Hin Hdot Hdots Hfit child.
  pose proof (parse_root_ok _ _ Hroot) as Hok.
  assert (Hpos : 1 <= ntok_of (t0 :: rest)) by (rewrite ntok_of_cons; lia).
  set (w := width_at root (ntok_of (t0 :: rest) - 1)).
  assert (Hw : 1 <= w <= MAXWIDTH).
  { apply width_at_layer; [exact Hok | lia]. }
  (* the name is the decimal string of a number below the width *)
  assert (Hname : exists i, 0 <= i < w /\ name = sprintf_d i).
  { rewrite (readdir_on_tokens _ _ _ Htok), Hroot in Hin.
    destruct (ntok_of (t0 :: rest) >? depth root) eqn:E;
      [rewrite Z.gtb_ltb in E; apply Z.ltb_lt in E; lia|].
    cbv zeta in Hin. fold w in Hin. rewrite readdir_loop_upto in Hin by lia.
    cbn [snd] in Hin. destruct Hin as [H|[H|Hin]]; [congruence..|].
    apply in_map_iff in Hin. destruct Hin as (i & <- & Hi).
    unfold upto in Hi. apply in_map_iff in Hi. destruct Hi as (k & <- & Hk).
    apply in_seq in Hk. exists (Z.of_nat k). split; [lia | reflexivity]. }
  destruct Hname as (i & Hi & ->).
  destruct (sprintf_d_is_name i ltac:(lia)) as (Hne & Hslash).
  assert (Hchild : parse_path child = t0 :: (rest ++ [sprintf_d i])%list).
  { unfold child, parse_path.
    rewrite parse_path_loop_child; try assumption.
    - fold (parse_path dir). rewrite Htok. reflexivity.
    - fold (parse_path dir). rewrite Htok. exact Hcap. }
  assert (Hn : ntok_of (t0 :: (rest ++ [sprintf_d i])%list)
               = ntok_of (t0 :: rest) + 1).
  { rewrite !ntok_of_cons, length_app. simpl List.length. lia. }
  split.
  - intros Hlt. split.
    + intros stbuf. rewrite (getattr_on_tokens _ _ _ Hchild), Hroot, Hn.
      rewrite (proj2 (Z.leb_le _ _)) by lia. reflexivity.
    + rewrite (readdir_on_tokens _ _ _ Hchild), Hroot, Hn.
      destruct (ntok_of (t0 :: rest) + 1 >? depth root) eqn:E;
        [rewrite Z.gtb_ltb in E; apply Z.ltb_lt in E; lia | reflexivity].
  - intros Heq.
    assert (Hv : valid_file_path child root).
    { unfold valid_file_path. cbv zeta.
      rewrite Hchild, tok_at_0, tok_at_last, Hn, last_last.
      split; [lia|]. split; [exact Hroot|]. split; [lia|].
      exists i. split.
      - apply sprintf_sscanf_roundtrip_int.
        unfold MAXWIDTH, INT_MIN, INT_MAX in *. lia.
      - unfold w in Hi. rewrite Heq in Hi. exact Hi. }
    split; [|split; [exact Hv|]].
    + intros stbuf. rewrite (getattr_on_tokens _ _ _ Hchild), Hroot, Hn.
      destruct (ntok_of (t0 :: rest) + 1 <=? depth root) eqn:E;
        [apply Z.leb_le in E; lia|].
      rewrite (proj2 (Z.eqb_eq _ _)) by lia. reflexivity.
    + unfold testfs_open. rewrite (file_checks_valid _ _ O_RDONLY Hv).
      reflexivity.
Qed.

Lemma listed_entries_resolve_witness :
  (String.length ("/1kx5x4/2" ++ String "/" "3") < 256)%nat /\
  parse_path "/1kx5x4/2" = ["1kx5x4"; "2"] /\
  In "3" (snd (testfs_readdir "/1kx5x4/2")) /\
  testfs_getattr "/1kx5x4/2/3" zero_stat = (0, mkStat reg_mode 1 1024) /\
  testfs_open "/1kx5x4/2/3" O_RDONLY = 0.
Proof.
  assert (Htok : parse_path "/1kx5x4/2" = ["1kx5x4"; "2"])
    by (vm_compute; reflexivity).
  assert (Hroot : parse_root "1kx5x4"
                  = Some (mkRoot 1024 2 (5 :: 4 :: repeat 0 14)))
    by (vm_compute; reflexivity).
  assert (Hin : In "3" (snd (testfs_readdir "/1kx5x4/2")))
    by (vm_compute; tauto).
  assert (Hfit : (String.length ("/1kx5x4/2" ++ String "/" "3") < 256)%nat)
    by (vm_compute; lia).
  destruct (listed_entries_resolve "/1kx5x4/2" _ _ _ "3" Htok Hroot
              ltac:(vm_compute; discriminate) ltac:(vm_compute; lia) Hin
              ltac:(discriminate) ltac:(discriminate) Hfit) as (_ & Hfile).
  destruct (Hfile eq_refl) as (Hg & _ & Ho).
  split; [exact Hfit|]. split; [exact Htok|]. split; [exact Hin|]. split; [apply Hg | exact Ho].
Defined.

End ListedEntries.

(** ** The four handlers together *)

Section Together.

(** X8.  The handlers agree on what a path names.  Every path is one of
    three things.  A directory: attribute lookup reports it, listing
    succeeds, open and read return [-ENOENT].  A file: attribute lookup
    reports a regular file, listing returns [-ENOENT], open returns 0,
    [-ENOENT] (leaf not a number in range) or [-EACCES].  Nothing: all four
    return [-ENOENT].  No other return value occurs.  The paths are those
    that fit the path buffer. *)
Theorem handlers_agree :
  forall path : string,
    (String.length path < 256)%nat ->
    ((forall stbuf, testfs_getattr path stbuf = (0, mkStat dir_mode 2 0)) /\
     fst (testfs_readdir path) = 0 /\
     (forall flags, testfs_open path flags = - ENOENT) /\
     (forall flags size offset,
         testfs_read path flags size offset = (- ENOENT, [])))
    \/
    (exists root,
       (forall stbuf,
           testfs_getattr path stbuf = (0, mkStat reg_mode 1 (fsize root))) /\
       testfs_readdir path = (- ENOENT, []) /\
       (forall flags,
           testfs_open path flags = 0 \/
           testfs_open path flags = - ENOENT \/
           testfs_open path flags = - EACCES))
    \/
    ((forall stbuf, fst (testfs_getattr path stbuf) = - ENOENT) /\
     testfs_readdir path = (- ENOENT, []) /\
     (forall flags, testfs_open path flags = - ENOENT) /\
     (forall flags size offset,
         testfs_read path flags size offset = (- ENOENT, []))).
Proof.
  intros path Hfit.
  destruct (parse_path path) as [|t0 rest] eqn:Htok.
  - (* no token *)
    right. right. split; [|split; [|split]].
    + intros stbuf. unfold testfs_getattr.
      destruct (String.eqb path "/"); [reflexivity|].
      rewrite Htok. reflexivity.
    + unfold testfs_readdir.
      destruct (String.eqb path "/"); [reflexivity|].
      rewrite Htok. reflexivity.
    + intros flags. unfold testfs_open, file_checks. rewrite Htok.
      reflexivity.
    + intros flags size offset. unfold testfs_read, file_checks.
      rewrite Htok. reflexivity.
  - destruct (parse_root t0) as [root|] eqn:Hroot.
    + destruct (Z.compare_spec (ntok_of (t0 :: rest)) (depth root + 1))
        as [Heq|Hlt|Hgt].
      * (* a file *)
        right. left. exists root. split; [|split].
        -- intros stbuf. rewrite (getattr_on_tokens _ _ _ Htok), Hroot.
           destruct (ntok_of (t0 :: rest) <=? depth root) eqn:E;
             [apply Z.leb_le in E; lia|].
           rewrite (proj2 (Z.eqb_eq _ _) Heq). reflexivity.
        -- rewrite (readdir_on_tokens _ _ _ Htok), Hroot.
           destruct (ntok_of (t0 :: rest) >? depth root) eqn:E;
             [reflexivity|].
           rewrite Z.gtb_ltb in E. apply Z.ltb_ge in E. lia.
        -- intros flags. unfold testfs_open.
           rewrite (file_checks_on_tokens _ _ _ Htok), Hroot.
           destruct (negb (ntok_of (t0 :: rest) =? depth root + 1)); [tauto|].
           destruct (sscanf_d "" (last rest t0)) as [val| |]; try tauto.
           destruct ((val <? 0) || (val >=? width_at root (depth root - 1)));
             [tauto|].
           destruct (negb (Z.land flags 3 =? O_RDONLY)); tauto.
      * (* a directory *)
        left.
        assert (Hc : forall flags, file_checks path flags = inl (- ENOENT)).
        { intros flags. rewrite (file_checks_on_tokens _ _ _ Htok), Hroot.
          destruct (ntok_of (t0 :: rest) =? depth root + 1) eqn:E;
            [apply Z.eqb_eq in E; lia | reflexivity]. }
        split; [|split; [|split]].
        -- intros stbuf. rewrite (getattr_on_tokens _ _ _ Htok), Hroot.
           rewrite (proj2 (Z.leb_le _ _)) by lia. reflexivity.
        -- rewrite (readdir_on_tokens _ _ _ Htok), Hroot.
           destruct (ntok_of (t0 :: rest) >? depth root) eqn:E;
             [|reflexivity].
           rewrite Z.gtb_ltb in E. apply Z.ltb_lt in E. lia.
        -- intros flags. unfold testfs_open. rewrite Hc. reflexivity.
        -- intros flags size offset. unfold testfs_read. rewrite Hc.
           reflexivity.
      * (* too deep *)
        right. right.
        assert (Hc : forall flags, file_checks path flags = inl (- ENOENT)).
        { intros flags. rewrite (file_checks_on_tokens _ _ _ Htok), Hroot.
          destruct (ntok_of (t0 :: rest) =? depth root + 1) eqn:E;
            [apply Z.eqb_eq in E; lia | reflexivity]. }
        split; [|split; [|split]].
        -- intros stbuf. rewrite (getattr_on_tokens _ _ _ Htok), Hroot.
           destruct (ntok_of (t0 :: rest) <=? depth root) eqn:E;
             [apply Z.leb_le in E; lia|].
           destruct (ntok_of (t0 :: rest) =? depth root + 1) eqn:E';
             [apply Z.eqb_eq in E'; lia | reflexivity].
        -- rewrite (readdir_on_tokens _ _ _ Htok), Hroot.
           destruct (ntok_of (t0 :: rest) >? depth root) eqn:E;
             [reflexivity|].
           rewrite Z.gtb_ltb in E. apply Z.ltb_ge in E. lia.
        -- intros flags. unfold testfs_open. rewrite Hc. reflexivity.
        -- intros flags size offset. unfold testfs_read. rewrite Hc.
           reflexivity.
    + (* the descriptor does not parse *)
      right. right. split; [|split; [|split]].
      * intros stbuf. rewrite (getattr_on_tokens _ _ _ Htok), Hroot.
        reflexivity.
      * rewrite (readdir_on_tokens _ _ _ Htok), Hroot. reflexivity.
      * intros flags. unfold testfs_open.
        rewrite (file_checks_on_tokens _ _ _ Htok), Hroot. reflexivity.
      * intros flags size offset. unfold testfs_read.
        rewrite (file_checks_on_tokens _ _ _ Htok), Hroot. reflexivity.
Qed.

Lemma handlers_agree_witness :
  (String.length "/1kx5x4/2" < 256)%nat /\
  (testfs_getattr "/1kx5x4/2" zero_stat = (0, mkStat dir_mode 2 0) /\
   fst (testfs_readdir "/1kx5x4/2") = 0 /\
   testfs_open "/1kx5x4/2" O_RDONLY = - ENOENT).
Proof.
  assert (Hfit : (String.length "/1kx5x4/2" < 256)%nat) by (vm_compute; lia).
  split; [exact Hfit|].
  destruct (handlers_agree "/1kx5x4/2" Hfit)
    as [(Hg & Hd & Ho & _)|[(root & Hg & Hd & _)|(Hg & Hd & _)]].
  - split; [apply Hg|]. split; [exact Hd | apply Ho].
  - discriminate Hd.
  - discriminate Hd.
Defined.

(** The outcome of the shared checks with other flags. *)
Lemma file_checks_flags (path : string) (flags : Z) :
  file_checks path flags =
    match file_checks path O_RDONLY with
    | inl err => inl err
    | inr root =>
        if Z.land flags 3 =? O_RDONLY then inr root else inl (- EACCES)
    end.
Proof.
  unfold file_checks.
  destruct (ntok_of (parse_path path) <? 1); [reflexivity|].
  destruct (parse_root (tok_at (parse_path path) 0)) as [root|];
    [|reflexivity].
  destruct (negb (ntok_of (parse_path path) =? depth root + 1));
    [reflexivity|].
  destruct (sscanf_d "" _) as [val| |]; try reflexivity.
  destruct ((val <? 0) || (val >=? width_at root (depth root - 1)));
    [reflexivity|].
  change (negb (Z.land O_RDONLY 3 =? O_RDONLY)) with false. cbv iota.
  destruct (Z.land flags 3 =? O_RDONLY); reflexivity.
Qed.

(** X9.  Existence goes before permission.  Open returns [-EACCES] only
    for a file that opens read-only, and exactly when the access mode
    asked for is not read-only; it returns [-ENOENT] exactly for the paths
    that do not open read-only either, whatever the flags.  The paths are
    those that fit the path buffer. *)
Theorem open_error_order :
  forall (path : string) (flags : Z),
    (String.length path < 256)%nat ->
    (testfs_open path flags = - EACCES <->
       testfs_open path O_RDONLY = 0 /\ Z.land flags 3 <> O_RDONLY) /\
    (testfs_open path flags = - ENOENT <->
       testfs_open path O_RDONLY = - ENOENT) /\
    (testfs_open path flags = 0 <->
       testfs_open path O_RDONLY = 0 /\ Z.land flags 3 = O_RDONLY).
Proof.
  intros path flags Hfit. unfold testfs_open.
  rewrite (file_checks_flags path flags).
  assert (Herr : forall err, file_checks path O_RDONLY = inl err ->
                             err = - ENOENT).
  { intros err. unfold file_checks.
    destruct (ntok_of (parse_path path) <? 1); [congruence|].
    destruct (parse_root (tok_at (parse_path path) 0)) as [root|];
      [|congruence].
    destruct (negb (ntok_of (parse_path path) =? depth root + 1));
      [congruence|].
    destruct (sscanf_d "" _) as [val| |]; try congruence.
    destruct ((val <? 0) || (val >=? width_at root (depth root - 1)));
      [congruence|].
    change (negb (Z.land O_RDONLY 3 =? O_RDONLY)) with false. cbv iota.
    discriminate. }
  destruct (file_checks path O_RDONLY) as [err|root] eqn:E.
  - rewrite (Herr err eq_refl). unfold ENOENT, EACCES, O_RDONLY. lia.
  - destruct (Z.land flags 3 =? O_RDONLY) eqn:Ef.
    + apply Z.eqb_eq in Ef. unfold ENOENT, EACCES, O_RDONLY in *. lia.
    + apply Z.eqb_neq in Ef. unfold ENOENT, EACCES, O_RDONLY in *. lia.
Qed.

Lemma open_error_order_witness :
  (String.length "/1kx5x4/2/3" < 256)%nat /\
  testfs_open "/1kx5x4/2/3" O_WRONLY = - EACCES /\
  testfs_open "/1kx5x4/2/9" O_WRONLY = - ENOENT.
Proof.
  assert (Hfit : (String.length "/1kx5x4/2/3" < 256)%nat)
    by (vm_compute; lia).
  assert (Hfit9 : (String.length "/1kx5x4/2/9" < 256)%nat)
    by (vm_compute; lia).
  split; [exact Hfit|]. split.
  - apply (proj1 (open_error_order "/1kx5x4/2/3" O_WRONLY Hfit)).
    split; [vm_compute; reflexivity | vm_compute; discriminate].
  - apply (proj1 (proj2 (open_error_order "/1kx5x4/2/9" O_WRONLY Hfit9))).
    vm_compute. reflexivity.
Defined.

End Together.

(** ** Reading *)

Section Reading.

Lemma read_loop_length (root : root_struct) (seed size offset : Z)
    (fuel : nat) :
  forall i,
    0 <= i <= size -> size <= INT_MAX -> size - i <= Z.of_nat fuel ->
    List.length (read_loop fuel root seed size offset i)
    = Z.to_nat (size - i).
Proof.
  unfold INT_MAX.
  induction fuel as [|fuel IH]; intros i Hi Hs Hf.
  - simpl. lia.
  - cbn [read_loop]. rewrite to_ulong_small by (unfold LONG_MAX; lia).
    destruct (i <? size) eqn:E.
    + apply Z.ltb_lt in E. cbn [List.length].
      rewrite to_int_small by (unfold INT_MIN, INT_MAX; lia).
      rewrite IH by lia. lia.
    + apply Z.ltb_ge in E. simpl. lia.
Qed.

Lemma file_checks_errors (path : string) (flags err : Z) :
  file_checks path flags = inl err -> err = - ENOENT \/ err = - EACCES.
Proof.
  unfold file_checks.
  destruct (ntok_of (parse_path path) <? 1); [intros H; inversion H; tauto|].
  destruct (parse_root (tok_at (parse_path path) 0)) as [root|];
    [|intros H; inversion H; tauto].
  destruct (negb (ntok_of (parse_path path) =? depth root + 1));
    [intros H; inversion H; tauto|].
  destruct (sscanf_d "" _) as [val| |]; try (intros H; inversion H; tauto).
  destruct ((val <? 0) || (val >=? width_at root (depth root - 1)));
    [intros H; inversion H; tauto|].
  destruct (negb (Z.land flags 3 =? O_RDONLY)); intros H; inversion H; tauto.
Qed.

(** X10.  [testfs_read] keeps to the buffer it is given.  For a path that
    fits the path buffer and a request of at most [INT_MAX] bytes, at any
    offset, it either fails with
    [-ENOENT] or [-EACCES] and stores nothing, or returns a count between 0
    and [size] and stores exactly that many bytes. *)
Theorem read_within_buffer :
  forall (path : string) (flags size offset : Z),
    (String.length path < 256)%nat ->
    0 <= size <= INT_MAX ->
    let r := testfs_read path flags size offset in
    ((fst r = - ENOENT \/ fst r = - EACCES) /\ snd r = []) \/
    (0 <= fst r <= size /\ Z.of_nat (List.length (snd r)) = fst r).
Proof.
  intros path flags size offset Hfit Hs r. unfold r, testfs_read.
  destruct (file_checks path flags) as [err|root] eqn:E.
  - left. split; [|reflexivity]. exact (file_checks_errors _ _ _ E).
  - right. unfold read_content.
    set (left := to_ulong (to_long (fsize root - offset))).
    assert (Hleft : 0 <= left).
    { unfold left, to_ulong, wrap_unsigned.
      apply Z.mod_pos_bound. reflexivity. }
    set (n := if left <? size then left else size).
    assert (Hn : 0 <= n <= size).
    { unfold n. destruct (left <? size) eqn:El; [apply Z.ltb_lt in El|]; lia. }
    destruct (n <=? 0) eqn:E0.
    + cbn [fst snd List.length]. lia.
    + apply Z.leb_gt in E0. cbn [fst snd].
      rewrite to_int_small by (unfold INT_MIN, INT_MAX in *; lia).
      rewrite read_loop_length by lia. lia.
Qed.

Lemma read_within_buffer_witness :
  (String.length "/1kx5x4/2/3" < 256)%nat /\
  0 <= 10 <= INT_MAX /\
  0 <= fst (testfs_read "/1kx5x4/2/3" O_RDONLY 10 1020) <= 10.
Proof.
  assert (H : 0 <= 10 <= INT_MAX) by (vm_compute; split; discriminate).
  assert (Hfit : (String.length "/1kx5x4/2/3" < 256)%nat)
    by (vm_compute; lia).
  split; [exact Hfit|]. split; [exact H|].
  destruct (read_within_buffer "/1kx5x4/2/3" O_RDONLY 10 1020 Hfit H)
    as [[[He|He] _]|[Hr _]]; [discriminate He | discriminate He | exact Hr].
Defined.

(** X11.  A read that reaches past the end of the file is cut at the end:
    for a file whose path fits the path buffer, from an offset inside the
    file, asking for more than is left gives
    what asking for exactly the rest gives, [file_size - offset] bytes. *)
Theorem read_cut_at_end :
  forall (path : string) (root : root_struct) (size offset : Z),
    (String.length path < 256)%nat ->
    valid_file_path path root ->
    0 <= offset <= fsize root ->
    fsize root - offset <= size ->
    testfs_read path O_RDONLY size offset
    = testfs_read path O_RDONLY (fsize root - offset) offset /\
    fst (testfs_read path O_RDONLY size offset) = fsize root - offset /\
    snd (testfs_read path O_RDONLY size offset)
    = file_bytes root (seed_from_path path) offset
        (Z.to_nat (fsize root - offset)).
Proof.
  intros path root size offset Hfit Hv Ho Hs.
  assert (Hfs : INT_MIN <= fsize root <= INT_MAX).
  { destruct Hv as (_ & Hroot & _). eapply parse_root_fsize_range; eauto. }
  unfold INT_MIN, INT_MAX in Hfs.
  assert (Hcut : testfs_read path O_RDONLY size offset
                 = testfs_read path O_RDONLY (fsize root - offset) offset).
  { unfold testfs_read. rewrite (file_checks_valid _ _ O_RDONLY Hv).
    cbn [Z.land O_RDONLY Z.eqb]. unfold read_content.
    rewrite to_long_small by (unfold LONG_MIN, LONG_MAX; lia).
    rewrite to_ulong_small by (unfold LONG_MAX; lia).
    rewrite Z.ltb_irrefl.
    destruct (fsize root - offset <? size) eqn:E; [reflexivity|].
    apply Z.ltb_ge in E. replace size with (fsize root - offset) by lia.
    reflexivity. }
  split; [exact Hcut|]. rewrite Hcut. unfold testfs_read.
  rewrite (file_checks_valid _ _ O_RDONLY Hv). cbn [Z.land O_RDONLY Z.eqb].
  rewrite read_content_inside by (unfold INT_MAX; lia).
  split; reflexivity.
Qed.

Lemma read_cut_at_end_witness :
  (String.length "/1kx5x4/2/3" < 256)%nat /\
  valid_file_path "/1kx5x4/2/3" (mkRoot 1024 2 (5 :: 4 :: repeat 0 14)) /\
  0 <= 1020 <= 1024 /\ 1024 - 1020 <= 4096 /\
  fst (testfs_read "/1kx5x4/2/3" O_RDONLY 4096 1020) = 4.
Proof.
  assert (Hv : valid_file_path "/1kx5x4/2/3"
                 (mkRoot 1024 2 (5 :: 4 :: repeat 0 14))).
  { valid_file_by_eval 3. }
  assert (Ho : 0 <= 1020 <= 1024) by lia.
  assert (Hs : 1024 - 1020 <= 4096) by lia.
  assert (Hfit : (String.length "/1kx5x4/2/3" < 256)%nat)
    by (vm_compute; lia).
  split; [exact Hfit|].
  split; [exact Hv|]. split; [exact Ho|]. split; [exact Hs|].
  exact (proj1 (proj2 (read_cut_at_end _ _ 4096 1020 Hfit Hv Ho Hs))).
Defined.

Lemma file_bytes_app (root : root_struct) (seed : Z) (a b : nat) (j : Z) :
  file_bytes root seed j (a + b)
  = (file_bytes root seed j a
     ++ file_bytes root seed (j + Z.of_nat a) b)%list.
Proof.
  revert j. induction a as [|a IH]; intros j.
  - simpl. f_equal. lia.
  - cbn [Nat.add file_bytes app]. f_equal. rewrite IH. do 2 f_equal. lia.
Qed.

(** X12.  Reads join: for a file whose path fits the path buffer, inside
    the file, the bytes of one read of [a + b]
    bytes are the bytes of a read of [a] bytes followed by those of a read
    of [b] bytes from where the first one stopped. *)
Theorem read_adjacent :
  forall (path : string) (root : root_struct) (offset a b : Z),
    (String.length path < 256)%nat ->
    valid_file_path path root ->
    0 <= offset -> 0 <= a -> 0 <= b ->
    offset + a + b <= fsize root ->
    snd (testfs_read path O_RDONLY (a + b) offset)
    = (snd (testfs_read path O_RDONLY a offset)
       ++ snd (testfs_read path O_RDONLY b (offset + a)))%list /\
    fst (testfs_read path O_RDONLY (a + b) offset)
    = fst (testfs_read path O_RDONLY a offset)
      + fst (testfs_read path O_RDONLY b (offset + a)).
Proof.
  intros path root offset a b Hfit Hv Ho Ha Hb Hin.
  assert (Hfs : INT_MIN <= fsize root <= INT_MAX).
  { destruct Hv as (_ & Hroot & _). eapply parse_root_fsize_range; eauto. }
  unfold testfs_read. rewrite (file_checks_valid _ _ O_RDONLY Hv).
  cbn [Z.land O_RDONLY Z.eqb].
  rewrite !read_content_inside by lia. cbn [fst snd].
  split; [|reflexivity].
  rewrite Z2Nat.inj_add by lia. rewrite file_bytes_app.
  rewrite Z2Nat.id by lia. reflexivity.
Qed.

Lemma read_adjacent_witness :
  (String.length "/1kx5x4/2/3" < 256)%nat /\
  valid_file_path "/1kx5x4/2/3" (mkRoot 1024 2 (5 :: 4 :: repeat 0 14)) /\
  snd (testfs_read "/1kx5x4/2/3" O_RDONLY (20 + 30) 10)
  = (snd (testfs_read "/1kx5x4/2/3" O_RDONLY 20 10)
     ++ snd (testfs_read "/1kx5x4/2/3" O_RDONLY 30 (10 + 20)))%list.
Proof.
  assert (Hv : valid_file_path "/1kx5x4/2/3"
                 (mkRoot 1024 2 (5 :: 4 :: repeat 0 14))).
  { valid_file_by_eval 3. }
  assert (Hfit : (String.length "/1kx5x4/2/3" < 256)%nat)
    by (vm_compute; lia).
  split; [exact Hfit|]. split; [exact Hv|].
  apply (read_adjacent _ _ 10 20 30 Hfit Hv); vm_compute; discriminate.
Defined.

End Reading.

(** ** The seed and the generated bytes *)

Section Generated.

Lemma to_uint_small (n : Z) : 0 <= n < 4294967296 -> to_uint n = n.
Proof.
  intros H. unfold to_uint, wrap_unsigned.
  change (2 ^ 32) with 4294967296. apply Z.mod_small. exact H.
Qed.

Lemma char_to_int_ascii (c : ascii) :
  (nat_of_ascii c < 128)%nat ->
  char_to_int c = Z.of_nat (nat_of_ascii c) /\
  0 <= Z.of_nat (nat_of_ascii c) <= 127.
Proof.
  intros H. unfold char_to_int.
  destruct (Z.of_nat (nat_of_ascii c) <? 128) eqn:E;
    [|apply Z.ltb_ge in E]; lia.
Qed.

(** The loop of [seed_from_path] where no [unsigned int] wraps. *)
Lemma seed_loop_ascii (p : string) :
  forall seed x,
    ascii_path p -> 0 <= x <= 127 -> 0 <= seed ->
    seed + 16129 * Z.of_nat (String.length p) < 4294967296 ->
    seed_loop p seed x = seed + adjacent_products p x /\
    0 <= adjacent_products p x <= 16129 * Z.of_nat (String.length p).
Proof.
  induction p as [|c p IH]; intros seed x Hp Hx Hs Hb.
  - simpl. lia.
  - inversion Hp as [|c' l Hc Hp']; subst.
    destruct (char_to_int_ascii c Hc) as (Hci & Hcr).
    cbn [seed_loop adjacent_products String.length] in *.
    rewrite Hci. rewrite Nat2Z.inj_succ in *.
    assert (Hprod : 0 <= Z.of_nat (nat_of_ascii c) * x <= 16129) by nia.
    rewrite (to_uint_small (Z.of_nat (nat_of_ascii c))) by lia.
    rewrite (to_uint_small (Z.of_nat (nat_of_ascii c) * x)) by lia.
    rewrite (to_uint_small (seed + _)) by lia.
    destruct (IH (seed + Z.of_nat (nat_of_ascii c) * x)
                 (Z.of_nat (nat_of_ascii c)) Hp' Hcr ltac:(lia) ltac:(lia))
      as (-> & Hr).
    split; lia.
Qed.

(** X13.  For a path of ASCII characters that fits the program's buffers,
    the seed is the plain sum of the products of neighbouring character
    codes (the first character counts for nothing): nothing wraps, and the
    seed lies between 0 and 255 * 127 * 127. *)
Theorem seed_is_adjacent_products :
  forall path : string,
    ascii_path path ->
    (String.length path < 256)%nat ->
    seed_from_path path = adjacent_products path 0 /\
    0 <= seed_from_path path <= 4112895.
Proof.
  intros path Hp Hlen. unfold seed_from_path.
  destruct (seed_loop_ascii path 0 0 Hp ltac:(lia) ltac:(lia) ltac:(lia))
    as (-> & Hr).
  rewrite Z.add_0_l.
  rewrite to_int_small by (unfold INT_MIN, INT_MAX; lia).
  split; [reflexivity | lia].
Qed.

Lemma seed_is_adjacent_products_witness :
  ascii_path "/1kx5x4/2/3" /\
  (String.length "/1kx5x4/2/3" < 256)%nat /\
  seed_from_path "/1kx5x4/2/3" = adjacent_products "/1kx5x4/2/3" 0.
Proof.
  assert (Hp : ascii_path "/1kx5x4/2/3")
    by (unfold ascii_path; simpl; repeat constructor).
  assert (Hl : (String.length "/1kx5x4/2/3" < 256)%nat) by (simpl; lia).
  split; [exact Hp|]. split; [exact Hl|].
  exact (proj1 (seed_is_adjacent_products _ Hp Hl)).
Defined.

Lemma file_bytes_letters (root : root_struct) (seed : Z) (n : nat) :
  forall j,
    0 <= j -> 0 <= seed <= 4112895 ->
    j + Z.of_nat n <= 1243000 ->
    1 <= fsize root <= INT_MAX ->
    Forall letter_or_newline (file_bytes root seed j n).
Proof.
  induction n as [|n IH]; intros j Hj Hs Hb Hf; [constructor|].
  cbn [file_bytes]. constructor.
  - rewrite content_byte_in_range by (unfold INT_MAX in *; lia).
    unfold letter_or_newline.
    destruct ((j mod 32 =? 31) || (j =? fsize root - 1)); [left; reflexivity|].
    pose proof (Z.mod_pos_bound (seed + j * 1723) 26 ltac:(lia)). right. lia.
  - apply IH; lia.
Qed.

(** X14.  Below position 1243000 the generator keeps its word: for a file
    path of ASCII characters that fits the buffers, every byte a read
    inside the file returns from there is a newline or one of the letters
    [a .. z]. *)
Theorem read_bytes_letters :
  forall (path : string) (root : root_struct) (size offset : Z),
    valid_file_path path root ->
    ascii_path path ->
    (String.length path < 256)%nat ->
    0 <= offset -> 0 <= size ->
    offset + size <= fsize root ->
    offset + size <= 1243000 ->
    Forall letter_or_newline (snd (testfs_read path O_RDONLY size offset)).
Proof.
  intros path root size offset Hv Hp Hlen Ho Hs Hin Hb.
  assert (Hfs : INT_MIN <= fsize root <= INT_MAX).
  { destruct Hv as (_ & Hroot & _). eapply parse_root_fsize_range; eauto. }
  destruct (seed_loop_ascii path 0 0 Hp ltac:(lia) ltac:(lia) ltac:(lia))
    as (Hseed & Hr).
  unfold testfs_read. rewrite (file_checks_valid _ _ O_RDONLY Hv).
  cbn [Z.land O_RDONLY Z.eqb].
  rewrite read_content_inside by lia. cbn [snd].
  destruct (Z.eq_dec size 0) as [->|Hne]; [constructor|].
  apply file_bytes_letters; try lia.
  unfold seed_from_path. rewrite Hseed, Z.add_0_l.
  rewrite to_int_small by (unfold INT_MIN, INT_MAX; lia). lia.
Qed.

Lemma read_bytes_letters_witness :
  valid_file_path "/1kx5x4/2/3" (mkRoot 1024 2 (5 :: 4 :: repeat 0 14)) /\
  ascii_path "/1kx5x4/2/3" /\
  Forall letter_or_newline
    (snd (testfs_read "/1kx5x4/2/3" O_RDONLY 64 960)).
Proof.
  assert (Hv : valid_file_path "/1kx5x4/2/3"
                 (mkRoot 1024 2 (5 :: 4 :: repeat 0 14))).
  { valid_file_by_eval 3. }
  assert (Hp : ascii_path "/1kx5x4/2/3")
    by (unfold ascii_path; simpl; repeat constructor).
  split; [exact Hv|]. split; [exact Hp|].
  apply (read_bytes_letters _ _ 64 960 Hv Hp);
    [simpl; lia | vm_compute; discriminate..].
Defined.

Lemma content_byte_period (root : root_struct) (seed j : Z) :
  0 <= j -> 0 <= seed ->
  seed + (j + 416) * 1723 <= INT_MAX ->
  fsize root <= INT_MAX ->
  j + 416 < fsize root - 1 ->
  content_byte root seed (j + 416) = content_byte root seed j.
Proof.
  intros Hj Hs Hb Hf Hend. unfold INT_MAX in *.
  rewrite !content_byte_in_range by (unfold INT_MAX; lia).
  replace ((j + 416) mod 32) with (j mod 32)
    by (replace (j + 416) with (j + 13 * 32) by lia;
        rewrite Z_mod_plus_full; reflexivity).
  replace ((seed + (j + 416) * 1723) mod 26) with ((seed + j * 1723) mod 26)
    by (replace (seed + (j + 416) * 1723)
          with (seed + j * 1723 + 27568 * 26) by lia;
        rewrite Z_mod_plus_full; reflexivity).
  destruct (j + 416 =? fsize root - 1) eqn:E1; [apply Z.eqb_eq in E1; lia|].
  destruct (j =? fsize root - 1) eqn:E2; [apply Z.eqb_eq in E2; lia|].
  reflexivity.
Qed.

Lemma file_bytes_period (root : root_struct) (seed : Z) (n : nat) :
  forall j,
    0 <= j -> 0 <= seed ->
    seed + (j + Z.of_nat n + 416) * 1723 <= INT_MAX ->
    fsize root <= INT_MAX ->
    j + Z.of_nat n + 416 < fsize root ->
    file_bytes root seed (j + 416) n = file_bytes root seed j n.
Proof.
  induction n as [|n IH]; intros j Hj Hs Hb Hf Hend; [reflexivity|].
  cbn [file_bytes]. rewrite Nat2Z.inj_succ in *. f_equal.
  - apply content_byte_period; lia.
  - replace (j + 416 + 1) with (j + 1 + 416) by lia. apply IH; lia.
Qed.

(** X15.  The generated content repeats every 416 bytes (the least common
    multiple of the line length 32 and the alphabet size 26): below
    position 1243000 and short of the last byte of the file, a read 416
    bytes further on returns the same bytes. *)
Theorem read_period_416 :
  forall (path : string) (root : root_struct) (size offset : Z),
    valid_file_path path root ->
    ascii_path path ->
    (String.length path < 256)%nat ->
    0 <= offset -> 0 <= size ->
    offset + size + 416 < fsize root ->
    offset + size + 416 <= 1243000 ->
    testfs_read path O_RDONLY size (offset + 416)
    = testfs_read path O_RDONLY size offset.
Proof.
  intros path root size offset Hv Hp Hlen Ho Hs Hin Hb.
  assert (Hfs : INT_MIN <= fsize root <= INT_MAX).
  { destruct Hv as (_ & Hroot & _). eapply parse_root_fsize_range; eauto. }
  destruct (seed_loop_ascii path 0 0 Hp ltac:(lia) ltac:(lia) ltac:(lia))
    as (Hseed & Hr).
  assert (Hsd : 0 <= seed_from_path path <= 4112895).
  { unfold seed_from_path. rewrite Hseed, Z.add_0_l.
    rewrite to_int_small by (unfold INT_MIN, INT_MAX; lia). lia. }
  unfold testfs_read. rewrite (file_checks_valid _ _ O_RDONLY Hv).
  cbn [Z.land O_RDONLY Z.eqb].
  rewrite !read_content_inside by lia. f_equal.
  apply file_bytes_period; unfold INT_MAX in *; lia.
Qed.

Lemma read_period_416_witness :
  valid_file_path "/1kx5x4/2/3" (mkRoot 1024 2 (5 :: 4 :: repeat 0 14)) /\
  ascii_path "/1kx5x4/2/3" /\
  testfs_read "/1kx5x4/2/3" O_RDONLY 100 (7 + 416)
  = testfs_read "/1kx5x4/2/3" O_RDONLY 100 7.
Proof.
  assert (Hv : valid_file_path "/1kx5x4/2/3"
                 (mkRoot 1024 2 (5 :: 4 :: repeat 0 14))).
  { valid_file_by_eval 3. }
  assert (Hp : ascii_path "/1kx5x4/2/3")
    by (unfold ascii_path; simpl; repeat constructor).
  split; [exact Hv|]. split; [exact Hp|].
  apply (read_period_416 _ _ 100 7 Hv Hp);
    [simpl; lia | vm_compute; try discriminate; reflexivity..].
Defined.

End Generated.

(** ** More on listing and lookup *)

Section ListingAndLookup.

Lemma sprintf_d_injective (i j : Z) : sprintf_d i = sprintf_d j -> i = j.
Proof.
  intros H. pose proof (numeral_of_sprintf i) as Hi.
  rewrite H, numeral_of_sprintf in Hi. congruence.
Qed.

Lemma NoDup_map_injective {A B : Type} (f : A -> B) (l : list A) :
  (forall a b, f a = f b -> a = b) -> NoDup l -> NoDup (map f l).
Proof.
  intros Hinj Hnd. induction Hnd as [|a l Hnotin Hnd IH]; simpl;
    constructor; [|exact IH].
  intros Hin. apply in_map_iff in Hin. destruct Hin as (b & Hb & Hin).
  apply Hinj in Hb. subst b. exact (Hnotin Hin).
Qed.

Lemma readdir_loop_NoDup (w : Z) :
  NoDup (readdir_loop (Z.to_nat w) 0 w) /\
  ~ In "." (readdir_loop (Z.to_nat w) 0 w) /\
  ~ In ".." (readdir_loop (Z.to_nat w) 0 w).
Proof.
  rewrite (readdir_loop_names (Z.to_nat w) 0 w) by lia.
  split; [|split].
  - apply NoDup_map_injective; [|apply seq_NoDup].
    intros a b H. apply sprintf_d_injective in H. lia.
  - intros Hin. apply in_map_iff in Hin. destruct Hin as (k & Hk & _).
    pose proof (numeral_of_sprintf (0 + Z.of_nat k)) as Hn.
    rewrite Hk in Hn. discriminate Hn.
  - intros Hin. apply in_map_iff in Hin. destruct Hin as (k & Hk & _).
    pose proof (numeral_of_sprintf (0 + Z.of_nat k)) as Hn.
    rewrite Hk in Hn. discriminate Hn.
Qed.

(** X16.  A listing never names an entry twice: for every path that fits
    the path buffer, the names [testfs_readdir] hands to [filler] are
    pairwise different. *)
Theorem readdir_no_duplicates :
  forall path : string,
    (String.length path < 256)%nat ->
    NoDup (snd (testfs_readdir path)).
Proof.
  intros path Hfit. unfold testfs_readdir.
  destruct (String.eqb path "/"); [constructor|].
  destruct (ntok_of (parse_path path) <? 1); [constructor|].
  destruct (parse_root (tok_at (parse_path path) 0)) as [root|];
    [|constructor].
  destruct (ntok_of (parse_path path) >? depth root); [constructor|].
  cbv zeta. cbn [snd].
  destruct (readdir_loop_NoDup
              (width_at root (ntok_of (parse_path path) - 1)))
    as (Hnd & Hdot & Hdots).
  constructor; [|constructor; assumption].
  intros [H|H]; [discriminate H | exact (Hdot H)].
Qed.

Lemma readdir_no_duplicates_witness :
  (String.length "/1kx5x4/2" < 256)%nat /\
  NoDup ["."; ".."; "0"; "1"; "2"; "3"].
Proof.
  assert (Hfit : (String.length "/1kx5x4/2" < 256)%nat) by (vm_compute; lia).
  split; [exact Hfit|].
  exact (readdir_no_duplicates "/1kx5x4/2" Hfit).
Defined.

(** X17.  Attribute lookup does not look at the leaf name, open does.  A
    path that fits the path buffer and has [depth + 1] tokens, whose last
    token is no numeral, or a
    number outside the last layer, is reported as a regular file of the
    descriptor's size and still cannot be opened or read: [-ENOENT],
    whatever the flags. *)
Theorem stat_without_open :
  forall (path t0 : string) (rest : list string) (root : root_struct),
    (String.length path < 256)%nat ->
    parse_path path = t0 :: rest ->
    parse_root t0 = Some root ->
    ntok_of (t0 :: rest) = depth root + 1 ->
    (forall val, sscanf_d "" (last rest t0) = Assigned val ->
                 val < 0 \/ width_at root (depth root - 1) <= val) ->
    (forall stbuf,
        testfs_getattr path stbuf = (0, mkStat reg_mode 1 (fsize root))) /\
    (forall flags, testfs_open path flags = - ENOENT) /\
    (forall flags size offset,
        testfs_read path flags size offset = (- ENOENT, [])).
Proof.
  intros path t0 rest root Hfit Htok Hroot Hn Hleaf.
  assert (Hc : forall flags, file_checks path flags = inl (- ENOENT)).
  { intros flags. rewrite (file_checks_on_tokens _ _ _ Htok), Hroot.
    rewrite (proj2 (Z.eqb_eq _ _) Hn). cbn [negb].
    destruct (sscanf_d "" (last rest t0)) as [val| |]; try reflexivity.
    destruct (Hleaf val eq_refl) as [Hlo|Hhi].
    - rewrite (proj2 (Z.ltb_lt _ _) Hlo). reflexivity.
    - rewrite Z.geb_leb, (proj2 (Z.leb_le _ _) Hhi), orb_true_r. reflexivity. }
  split; [|split].
  - intros stbuf. rewrite (getattr_on_tokens _ _ _ Htok), Hroot.
    destruct (ntok_of (t0 :: rest) <=? depth root) eqn:E;
      [apply Z.leb_le in E; lia|].
    rewrite (proj2 (Z.eqb_eq _ _) Hn). reflexivity.
  - intros flags. unfold testfs_open. rewrite Hc. reflexivity.
  - intros flags size offset. unfold testfs_read. rewrite Hc. reflexivity.
Qed.

Lemma stat_without_open_witness :
  (String.length "/1kx5x4/2/9" < 256)%nat /\
  parse_path "/1kx5x4/2/9" = ["1kx5x4"; "2"; "9"] /\
  testfs_getattr "/1kx5x4/2/9" zero_stat = (0, mkStat reg_mode 1 1024) /\
  testfs_open "/1kx5x4/2/9" O_RDONLY = - ENOENT.
Proof.
  assert (Htok : parse_path "/1kx5x4/2/9" = ["1kx5x4"; "2"; "9"])
    by (vm_compute; reflexivity).
  assert (Hroot : parse_root "1kx5x4"
                  = Some (mkRoot 1024 2 (5 :: 4 :: repeat 0 14)))
    by (vm_compute; reflexivity).
  assert (Hleaf : forall val,
             sscanf_d "" (last ["2"; "9"] "1kx5x4") = Assigned val ->
             val < 0 \/
             width_at (mkRoot 1024 2 (5 :: 4 :: repeat 0 14)) (2 - 1) <= val).
  { intros val H. vm_compute in H. injection H as <-. right.
    vm_compute. discriminate. }
  assert (Hfit : (String.length "/1kx5x4/2/9" < 256)%nat)
    by (vm_compute; lia).
  destruct (stat_without_open _ _ _ _ Hfit Htok Hroot eq_refl Hleaf)
    as (Hg & Ho & _).
  split; [exact Hfit|]. split; [exact Htok|]. split; [apply Hg | apply Ho].
Defined.

End ListingAndLookup.
